(** * Session registry of the chat front-end (main.py)

    A shallow embedding of the Flask handlers of [main.py]: the two module
    globals [chat_sessions] and [current_session_id], the session endpoints,
    [/reset] and [/chat].  Python strings are Rocq strings read as sequences
    of code points below 256; the insertion-ordered [dict] is an association
    list with unique keys; the wall clock and the remote model are oracles
    consulted in program order. *)

From Stdlib Require Import List String Ascii Bool Arith ZArith Lia.
From Stdlib Require Import Sorting.Sorted Sorting.Permutation.
From Stdlib Require Import DecimalString OrderedTypeEx.
Import ListNotations.
Local Open Scope string_scope.
Local Open Scope list_scope.
Local Open Scope nat_scope.

(* ================================================================== *)
(** ** Python string primitives *)

Module PyStr.

(** [str.isspace] on one code point below 256: TAB..CR, FS..US, SPACE,
    NEL (0x85) and NBSP (0xA0).  The same set is what [\s] matches in a
    [str] pattern. *)
Definition isspace (c : ascii) : bool :=
  let n := nat_of_ascii c in
  ((9 <=? n) && (n <=? 13)) || ((28 <=? n) && (n <=? 32))
  || (n =? 133) || (n =? 160).

Definition is_empty (s : string) : bool :=
  match s with EmptyString => true | String _ _ => false end.

(** Truthiness of a [str]: non-empty. *)
Definition truthy (s : string) : bool := negb (is_empty s).

Fixpoint lstrip (s : string) : string :=
  match s with
  | EmptyString => EmptyString
  | String c s' => if isspace c then lstrip s' else s
  end.

Fixpoint rstrip (s : string) : string :=
  match s with
  | EmptyString => EmptyString
  | String c s' =>
      let r := rstrip s' in
      if isspace c && is_empty r then EmptyString else String c r
  end.

(** [s.strip()] *)
Definition strip (s : string) : string := rstrip (lstrip s).

(** [re.sub(r"\s+", " ", s)]: every maximal run of whitespace becomes one
    space.  [in_run] records that the previous code point was whitespace. *)
Fixpoint sub_ws (in_run : bool) (s : string) : string :=
  match s with
  | EmptyString => EmptyString
  | String c s' =>
      if isspace c
      then (if in_run then sub_ws true s' else String " " (sub_ws true s'))
      else String c (sub_ws false s')
  end.

(** [s[:n]] *)
Fixpoint take (n : nat) (s : string) : string :=
  match n, s with
  | S n', String c s' => String c (take n' s')
  | _, _ => EmptyString
  end.

(** [s.startswith(p)] *)
Definition startswith (s p : string) : bool := String.prefix p s.

(** [s.endswith(p)] *)
Definition endswith (s p : string) : bool :=
  let n := String.length s in
  let k := String.length p in
  (k <=? n) && String.eqb (String.substring (n - k) k s) p.

(** [str.lower] on one code point below 256: A-Z and the Latin-1 capitals
    0xC0-0xDE other than the multiplication sign 0xD7. *)
Definition lower_char (c : ascii) : ascii :=
  let n := nat_of_ascii c in
  if ((65 <=? n) && (n <=? 90))
     || ((192 <=? n) && (n <=? 222) && negb (n =? 215))
  then ascii_of_nat (n + 32) else c.

Fixpoint lower (s : string) : string :=
  match s with
  | EmptyString => EmptyString
  | String c s' => String (lower_char c) (lower s')
  end.

(** [str(n)] for a non-negative int and for any int. *)
Definition of_nat (n : nat) : string := NilEmpty.string_of_uint (Nat.to_uint n).
Definition of_Z (z : Z) : string := NilZero.string_of_int (Z.to_int z).

(** Zero padding to width [w], as [%02d] and friends do. *)
Fixpoint zeros (k : nat) : string :=
  match k with O => EmptyString | S k' => String "0" (zeros k') end.

Definition pad (w n : nat) : string :=
  let s := of_nat n in (zeros (w - String.length s) ++ s)%string.

(** [a < b] on [str]: lexicographic on code points. *)
Definition ltb (a b : string) : bool := String.ltb a b.

End PyStr.

(* ================================================================== *)
(** ** The insertion-ordered [dict] with [str] keys *)

Module PyDict.

Section Dict.
Context {V : Type}.

Definition t := list (string * V).

Definition keys (d : t) : list string := map fst d.

(** [d.get(k)] / [d[k]] ([None] stands for [KeyError]) *)
Fixpoint get (k : string) (d : t) : option V :=
  match d with
  | [] => None
  | (k', v) :: d' => if String.eqb k k' then Some v else get k d'
  end.

(** [k in d] *)
Definition mem (k : string) (d : t) : bool :=
  match get k d with Some _ => true | None => false end.

(** [d[k] = v]: an existing key keeps its position, a new key goes last. *)
Fixpoint set (k : string) (v : V) (d : t) : t :=
  match d with
  | [] => [(k, v)]
  | (k', v') :: d' =>
      if String.eqb k k' then (k, v) :: d' else (k', v') :: set k v d'
  end.

(** [del d[k]] for a key that is present. *)
Fixpoint del (k : string) (d : t) : t :=
  match d with
  | [] => []
  | (k', v') :: d' =>
      if String.eqb k k' then d' else (k', v') :: del k d'
  end.

(** [len(d)] *)
Definition len (d : t) : nat := List.length d.

(** [next(iter(d.keys()), None)] *)
Definition first_key (d : t) : option string :=
  match d with [] => None | (k, _) :: _ => Some k end.

(** [not d] *)
Definition is_empty (d : t) : bool :=
  match d with [] => true | _ :: _ => false end.

End Dict.

Arguments t V : clear implicits.

End PyDict.

(* ================================================================== *)
(** ** Values crossing the program boundary *)

(** A reading of [datetime.now()].  [posix] is [int(d.timestamp())] of the
    same reading; it depends on the host time zone and is carried along. *)
Record datetime := {
  year : nat; month : nat; day : nat;
  hour : nat; minute : nat; second : nat; microsecond : nat;
  posix : Z
}.

(** [d.strftime("%H:%M")] *)
Definition strftime_HM (d : datetime) : string :=
  (PyStr.pad 2 (hour d) ++ ":" ++ PyStr.pad 2 (minute d))%string.

(** [d.isoformat()]: the fraction is printed only when it is not zero. *)
Definition isoformat (d : datetime) : string :=
  (PyStr.pad 4 (year d) ++ "-" ++ PyStr.pad 2 (month d) ++ "-"
   ++ PyStr.pad 2 (day d) ++ "T" ++ PyStr.pad 2 (hour d) ++ ":"
   ++ PyStr.pad 2 (minute d) ++ ":" ++ PyStr.pad 2 (second d)
   ++ (if Nat.eqb (microsecond d) 0 then EmptyString
       else "." ++ PyStr.pad 6 (microsecond d)))%string.

(** A decoded JSON value (numbers restricted to integers). *)
#[local] Unset Elimination Schemes.
Inductive json :=
| JNull
| JBool (b : bool)
| JNum (z : Z)
| JStr (s : string)
| JArr (l : list json)
| JObj (l : list (string * json)).
#[local] Set Elimination Schemes.

(** [bool(v)] *)
Definition json_truthy (v : json) : bool :=
  match v with
  | JNull => false
  | JBool b => b
  | JNum z => negb (Z.eqb z 0)
  | JStr s => PyStr.truthy s
  | JArr l => match l with [] => false | _ => true end
  | JObj l => match l with [] => false | _ => true end
  end.

(** [types.Part]: built by [Part.from_text] or [Part.from_bytes]. *)
Inductive Part :=
| from_text (text : string)
| from_bytes (data : list Byte.byte) (mime_type : string).

(** [types.Content] *)
Record Content := { role : string; parts : list Part }.

(** One value of [chat_sessions]. *)
Record session := {
  history : list Content;
  created_at : string;
  title : string;
  pinned : bool
}.

(** A werkzeug [FileStorage]: [mimetype] is the empty string when the part
    declares no content type. *)
Record FileStorage := {
  filename : option string;
  mimetype : string;
  content : list Byte.byte
}.

(** What the remote stream yields: the [text] of each chunk, then possibly
    an exception with its message. *)
Record stream := { chunks : list (option string); failure : option string }.

(** The body of a [/chat] request: a multipart form with its [message]
    field and its [images] files, or else [request.get_json(silent=True)
    or {}], a JSON object (empty when the body does not decode). *)
Inductive chat_request :=
| Multipart (message : option string) (images : list FileStorage)
| Json (data : PyDict.t json).

Module Item.
(** One entry of the session list. *)
Record t := {
  id : string;
  title : string;
  created_at : string;
  message_count : nat;
  pinned : bool
}.
End Item.

Module Msg.
(** One serialised part of a message. *)
Record part := { type : string; content : string }.
(** One serialised message of a session. *)
Record t := { role : string; timestamp : string; parts : list part }.
End Msg.

(** The JSON documents (and the page) the handlers answer with. *)
Inductive response :=
| Page (template : string)
| Sessions (sessions : list Item.t) (current : option string)
| SessionDetail (id title created_at : string) (messages : list Msg.t)
| NotFound
| Created (session_id title : string)
| OkTrue
| Deleted (current : option string)
| Switched (session_id : string)
| ChatReply (reply time : string).

Definition status_code (r : response) : nat :=
  match r with NotFound => 404 | _ => 200 end.

(** Python exceptions a handler can let escape. *)
Inductive exn :=
| KeyError (key : option string)
| AttributeError.

Inductive result (A : Type) :=
| Ok (a : A)
| Raise (e : exn).
Arguments Ok {A} a.
Arguments Raise {A} e.

(** The module globals, and how many times the outside world (clock,
    remote model) has been consulted so far. *)
Record world := {
  chat_sessions : PyDict.t session;
  current_session_id : option string;
  reads : nat
}.

(** The state at import time. *)
Definition initial : world :=
  {| chat_sessions := []; current_session_id := None; reads := 0 |}.

(** Handlers run over the globals and may raise; what was written before
    an exception stays written. *)
Definition M (A : Type) : Type := world -> result A * world.

Definition ret {A} (a : A) : M A := fun w => (Ok a, w).

Definition raise {A} (e : exn) : M A := fun w => (Raise e, w).

Definition bind {A B} (m : M A) (k : A -> M B) : M B :=
  fun w => match m w with
           | (Ok a, w') => k a w'
           | (Raise e, w') => (Raise e, w')
           end.

Notation "x <- m ;; k" := (bind m (fun x => k))
  (at level 61, m at next level, right associativity).
Notation "m ;;; k" := (bind m (fun _ => k))
  (at level 61, right associativity).

Definition sessions_now : M (PyDict.t session) :=
  fun w => (Ok (chat_sessions w), w).

Definition current_now : M (option string) :=
  fun w => (Ok (current_session_id w), w).

Definition set_sessions (d : PyDict.t session) : M unit :=
  fun w => (Ok tt, {| chat_sessions := d;
                      current_session_id := current_session_id w;
                      reads := reads w |}).

Definition set_current (c : option string) : M unit :=
  fun w => (Ok tt, {| chat_sessions := chat_sessions w;
                      current_session_id := c;
                      reads := reads w |}).

(** [chat_sessions[k]] *)
Definition session_at (k : option string) : M session :=
  fun w => match k with
           | Some sid =>
               match PyDict.get sid (chat_sessions w) with
               | Some s => (Ok s, w)
               | None => (Raise (KeyError k), w)
               end
           | None => (Raise (KeyError None), w)
           end.

(** In-place mutation of the session object stored under [sid]. *)
Definition mutate (sid : string) (f : session -> session) : M unit :=
  fun w => match PyDict.get sid (chat_sessions w) with
           | Some s =>
               (Ok tt, {| chat_sessions := PyDict.set sid (f s) (chat_sessions w);
                          current_session_id := current_session_id w;
                          reads := reads w |})
           | None => (Raise (KeyError (Some sid)), w)
           end.

Fixpoint mapM {A B} (f : A -> M B) (l : list A) : M (list B) :=
  match l with
  | [] => ret []
  | x :: l' => y <- f x ;; ys <- mapM f l' ;; ret (y :: ys)
  end.

(* ================================================================== *)
(** ** Sorting as [list.sort(key=..., reverse=True)] does *)

(** The sort key of [get_sessions]: the tuple [(not pinned, created_at)]. *)
Definition sort_key (x : Item.t) : bool * string :=
  (negb (Item.pinned x), Item.created_at x).

(** [a < b] on such tuples: [False < True] on the first component, then
    the strings. *)
Definition key_lt (a b : bool * string) : bool :=
  match fst a, fst b with
  | false, true => true
  | true, false => false
  | _, _ => PyStr.ltb (snd a) (snd b)
  end.

(** Descending and stable: [x], which stood before everything in [l],
    stays before the entries whose key is not greater than its own. *)
Fixpoint insert_desc (x : Item.t) (l : list Item.t) : list Item.t :=
  match l with
  | [] => [x]
  | y :: l' =>
      if key_lt (sort_key x) (sort_key y)
      then y :: insert_desc x l'
      else x :: y :: l'
  end.

Definition sort_reverse (l : list Item.t) : list Item.t :=
  fold_right insert_desc [] l.

(* ================================================================== *)
(** ** The program *)

Definition TEXT_MODEL : string := "gemini-2.5-flash".
Definition VISION_MODEL : string := "gemini-2.5-pro".

(** [(v or '').strip()] for an optional JSON value: [strip] exists on
    [str] only. *)
Definition or_empty_strip (v : option json) : result string :=
  let x := match v with
           | Some j => if json_truthy j then j else JStr EmptyString
           | None => JStr EmptyString
           end in
  match x with
  | JStr s => Ok (PyStr.strip s)
  | _ => Raise AttributeError
  end.

Definition slug_from_text (text : string) (limit : nat) : option string :=
  let text := PyStr.sub_ws false (PyStr.strip text) in
  let text := PyStr.take limit text in
  if PyStr.truthy text then Some text else None.

(** [sum(1 for c in history if getattr(c, "role", '') == "user")] *)
Definition msg_count (h : list Content) : nat :=
  list_sum (map (fun _ => 1) (filter (fun c => String.eqb (role c) "user") h)).

Definition item_of (kv : string * session) : Item.t :=
  {| Item.id := fst kv;
     Item.title := title (snd kv);
     Item.created_at := created_at (snd kv);
     Item.message_count := msg_count (history (snd kv));
     Item.pinned := pinned (snd kv) |}.

(** The MIME type [chat] settles on for one uploaded file. *)
Definition upload_mime (f : FileStorage) : string :=
  let mime := if PyStr.truthy (mimetype f) then mimetype f
              else "application/octet-stream" in
  let name := PyStr.lower (match filename f with
                           | Some n => if PyStr.truthy n then n else EmptyString
                           | None => EmptyString
                           end) in
  if String.eqb mime "application/octet-stream" then
    if PyStr.endswith name ".png" then "image/png"
    else if PyStr.endswith name ".jpg" || PyStr.endswith name ".jpeg"
         then "image/jpeg"
    else if PyStr.endswith name ".webp" then "image/webp"
    else "image/*"
  else mime.

(** [bool(f)] of a [FileStorage] is [bool(f.filename)]. *)
Definition file_truthy (f : FileStorage) : bool :=
  match filename f with Some n => PyStr.truthy n | None => false end.

(** The loop over [request.files.getlist("images")].  [Part.from_bytes]
    accepts any bytes with any type string, so the [except] branch that
    would drop a file is never taken. *)
Fixpoint image_parts_of (files : list FileStorage) : list Part :=
  match files with
  | [] => []
  | f :: fs =>
      if file_truthy f
      then from_bytes (content f) (upload_mime f) :: image_parts_of fs
      else image_parts_of fs
  end.

(** The serialisation of one part in [get_session]: a part with non-empty
    text is a text part, every other part is reported as an image. *)
Definition part_view (p : Part) : Msg.part :=
  match p with
  | from_text t =>
      if PyStr.truthy t then {| Msg.type := "text"; Msg.content := t |}
      else {| Msg.type := "image"; Msg.content := "image_data" |}
  | from_bytes _ _ => {| Msg.type := "image"; Msg.content := "image_data" |}
  end.

(** The reply assembled from a stream. *)
Definition reply_of (r : stream) : string :=
  match failure r with
  | Some e => ("Model error: " ++ e)%string
  | None =>
      fold_left (fun acc c => match c with
                              | Some t => if PyStr.truthy t
                                          then (acc ++ t)%string else acc
                              | None => acc
                              end) (chunks r) EmptyString
  end.

Definition set_title (t : string) (s : session) : session :=
  {| history := history s; created_at := created_at s;
     title := t; pinned := pinned s |}.

Definition set_pinned (b : bool) (s : session) : session :=
  {| history := history s; created_at := created_at s;
     title := title s; pinned := b |}.

Definition set_history (h : list Content) (s : session) : session :=
  {| history := h; created_at := created_at s;
     title := title s; pinned := pinned s |}.

Section Program.

(** The wall clock: the [n]-th consultation of the outside world, when it
    is [datetime.now()], reads [clock n]. *)
Variable clock : nat -> datetime.

(** The remote model: the [n]-th consultation, when it is
    [generate_content_stream(model, contents, config)], yields this. *)
Variable generate_content_stream : nat -> string -> list Content -> stream.

Definition now : M datetime :=
  fun w => (Ok (clock (reads w)),
            {| chat_sessions := chat_sessions w;
               current_session_id := current_session_id w;
               reads := S (reads w) |}).

Definition call_model (model : string) (contents : list Content) : M stream :=
  fun w => (Ok (generate_content_stream (reads w) model contents),
            {| chat_sessions := chat_sessions w;
               current_session_id := current_session_id w;
               reads := S (reads w) |}).

Definition now_time : M string :=
  d <- now ;; ret (strftime_HM d).

Definition new_session_title : M string :=
  d <- sessions_now ;;
  ret ("New Chat " ++ PyStr.of_nat (PyDict.len d + 1))%string.

Definition create_session_object : M string :=
  d <- sessions_now ;;
  t <- now ;;
  let session_id :=
    ("session_" ++ PyStr.of_nat (PyDict.len d + 1) ++ "_"
     ++ PyStr.of_Z (posix t))%string in
  c <- now ;;
  ttl <- new_session_title ;;
  d' <- sessions_now ;;
  set_sessions (PyDict.set session_id
                  {| history := []; created_at := isoformat c;
                     title := ttl; pinned := false |} d') ;;;
  ret session_id.

Definition get_or_create_default_session : M session :=
  d <- sessions_now ;;
  (if PyDict.is_empty d
   then sid <- create_session_object ;; set_current (Some sid)
   else ret tt) ;;;
  cur <- current_now ;;
  session_at cur.

Definition index : M response :=
  get_or_create_default_session ;;;
  ret (Page "index.html").

Definition get_sessions : M response :=
  d <- sessions_now ;;
  let items := map item_of d in
  let items := sort_reverse items in
  cur <- current_now ;;
  ret (Sessions items cur).

Definition message_view (c : Content) : M Msg.t :=
  ts <- now_time ;;
  ret {| Msg.role := role c; Msg.timestamp := ts;
         Msg.parts := map part_view (parts c) |}.

Definition get_session (session_id : string) : M response :=
  d <- sessions_now ;;
  if negb (PyDict.mem session_id d) then ret NotFound
  else
    s <- session_at (Some session_id) ;;
    messages <- mapM message_view (history s) ;;
    ret (SessionDetail session_id (title s) (created_at s) messages).

Definition create_session : M response :=
  sid <- create_session_object ;;
  set_current (Some sid) ;;;
  s <- session_at (Some sid) ;;
  ret (Created sid (title s)).

(** [data] is [request.get_json(silent=True) or {}], a JSON object. *)
Definition update_session (session_id : string) (data : PyDict.t json)
  : M response :=
  d <- sessions_now ;;
  if negb (PyDict.mem session_id d) then ret NotFound
  else
    (match PyDict.get "title" data with
     | Some v =>
         match or_empty_strip (Some v) with
         | Ok t =>
             s <- session_at (Some session_id) ;;
             mutate session_id
               (set_title (if PyStr.truthy t then t else title s))
         | Raise e => raise e
         end
     | None => ret tt
     end) ;;;
    (match PyDict.get "pinned" data with
     | Some v => mutate session_id (set_pinned (json_truthy v))
     | None => ret tt
     end) ;;;
    ret OkTrue.

Definition delete_session (session_id : string) : M response :=
  d <- sessions_now ;;
  if negb (PyDict.mem session_id d) then ret NotFound
  else
    set_sessions (PyDict.del session_id d) ;;;
    cur <- current_now ;;
    (match cur with
     | Some c =>
         if String.eqb c session_id then
           d' <- sessions_now ;;
           set_current (PyDict.first_key d') ;;;
           cur' <- current_now ;;
           match cur' with
           | None => sid <- create_session_object ;; set_current (Some sid)
           | Some _ => ret tt
           end
         else ret tt
     | None => ret tt
     end) ;;;
    cur'' <- current_now ;;
    ret (Deleted cur'').

Definition switch_session (session_id : string) : M response :=
  d <- sessions_now ;;
  if negb (PyDict.mem session_id d) then ret NotFound
  else set_current (Some session_id) ;;; ret (Switched session_id).

(** [sess] aliases [chat_sessions[current_session_id]]: writes through it
    are writes to the entry stored under the current id. *)
Definition mutate_current (f : session -> session) : M unit :=
  cur <- current_now ;;
  match cur with
  | Some sid => mutate sid f
  | None => raise (KeyError None)
  end.

Definition reset : M response :=
  get_or_create_default_session ;;;
  mutate_current (set_history []) ;;;
  ret OkTrue.

(** The request decoding at the head of [chat]. *)
Definition chat_input (req : chat_request) : result (string * list Part) :=
  match req with
  | Multipart message images =>
      Ok (PyStr.strip (match message with
                       | Some m => if PyStr.truthy m then m else EmptyString
                       | None => EmptyString
                       end),
          image_parts_of images)
  | Json data =>
      match or_empty_strip (PyDict.get "message" data) with
      | Ok t => Ok (t, [])
      | Raise e => Raise e
      end
  end.

Definition chat (req : chat_request) : M response :=
  match chat_input req with
  | Raise e => raise e
  | Ok (user_text, image_parts) =>
      if negb (PyStr.truthy user_text)
         && match image_parts with [] => true | _ => false end
      then
        t <- now_time ;;
        ret (ChatReply "Please type or upload something." t)
      else
        sess <- get_or_create_default_session ;;
        let user_parts :=
          (if PyStr.truthy user_text then [from_text user_text] else [])
          ++ image_parts in
        mutate_current
          (fun s => set_history
                      (history s ++ [{| role := "user"; parts := user_parts |}])
                      s) ;;;
        (if PyStr.startswith (title sess) "New Chat" && PyStr.truthy user_text
         then match slug_from_text user_text 40 with
              | Some maybe => mutate_current (set_title maybe)
              | None => ret tt
              end
         else ret tt) ;;;
        let model_name :=
          match image_parts with [] => TEXT_MODEL | _ => VISION_MODEL end in
        cur <- current_now ;;
        s <- session_at cur ;;
        r <- call_model model_name (history s) ;;
        let reply_text := reply_of r in
        mutate_current
          (fun s => set_history
                      (history s
                       ++ [{| role := "model";
                              parts := [from_text reply_text] |}])
                      s) ;;;
        t <- now_time ;;
        ret (ChatReply reply_text t)
  end.

(** One HTTP request. *)
Inductive request :=
| GET_index
| GET_sessions
| GET_session (session_id : string)
| POST_sessions
| PUT_session (session_id : string) (data : PyDict.t json)
| DELETE_session (session_id : string)
| POST_switch_session (session_id : string)
| POST_reset
| POST_chat (req : chat_request).

Definition handle (r : request) : M response :=
  match r with
  | GET_index => index
  | GET_sessions => get_sessions
  | GET_session sid => get_session sid
  | POST_sessions => create_session
  | PUT_session sid data => update_session sid data
  | DELETE_session sid => delete_session sid
  | POST_switch_session sid => switch_session sid
  | POST_reset => reset
  | POST_chat req => chat req
  end.

(** The state after serving a sequence of requests, oldest first. *)
Definition serve (rs : list request) (w : world) : world :=
  fold_left (fun w r => snd (handle r w)) rs w.

(** Every state the globals can be in. *)
Inductive reachable : world -> Prop :=
| reach_initial : reachable initial
| reach_handle w r : reachable w -> reachable (snd (handle r w)).

End Program.

(* ================================================================== *)
(** ** Vocabulary of the statements *)

(** Every code point of the string is whitespace. *)
Fixpoint all_space (s : string) : bool :=
  match s with
  | EmptyString => true
  | String c s' => PyStr.isspace c && all_space s'
  end.

(** [a] does not sort after [b]: its key is not smaller. *)
Definition key_ge (x y : Item.t) : Prop :=
  key_lt (sort_key x) (sort_key y) = false.

(** The registry invariant: the current id names a stored session (or
    nothing is stored and nothing is current), and no id is stored twice. *)
Definition current_exists (w : world) : Prop :=
  match current_session_id w with
  | Some c => PyDict.mem c (chat_sessions w) = true
  | None => chat_sessions w = []
  end.

Definition well_formed (w : world) : Prop :=
  current_exists w /\ NoDup (PyDict.keys (chat_sessions w)).

(** The user turn [chat] appends, the title it leaves, the model it asks. *)
Definition user_turn (user_text : string) (image_parts : list Part) : Content :=
  {| role := "user";
     parts := (if PyStr.truthy user_text then [from_text user_text] else [])
              ++ image_parts |}.

Definition model_turn (reply_text : string) : Content :=
  {| role := "model"; parts := [from_text reply_text] |}.

Definition auto_title (old user_text : string) : string :=
  if PyStr.startswith old "New Chat" && PyStr.truthy user_text
  then match slug_from_text user_text 40 with
       | Some maybe => maybe
       | None => old
       end
  else old.

Definition model_for (image_parts : list Part) : string :=
  match image_parts with [] => TEXT_MODEL | _ => VISION_MODEL end.

Section Vocabulary.

Variable clock : nat -> datetime.

(** The id and the record [create_session_object] would produce now. *)
Definition next_id (w : world) : string :=
  ("session_" ++ PyStr.of_nat (PyDict.len (chat_sessions w) + 1) ++ "_"
   ++ PyStr.of_Z (posix (clock (reads w))))%string.

Definition fresh_session (w : world) : session :=
  {| history := [];
     created_at := isoformat (clock (S (reads w)));
     title := ("New Chat " ++ PyStr.of_nat (PyDict.len (chat_sessions w) + 1))%string;
     pinned := false |}.

(** The messages [get_session] builds from a history when the clock is
    first read at consultation [n]. *)
Fixpoint messages_at (n : nat) (h : list Content) : list Msg.t :=
  match h with
  | [] => []
  | c :: h' =>
      {| Msg.role := role c;
         Msg.timestamp := strftime_HM (clock n);
         Msg.parts := map part_view (parts c) |} :: messages_at (S n) h'
  end.

End Vocabulary.

(* ================================================================== *)
(** ** Scenarios used to exercise the statements *)

Module Scenario.

(** Two readings of the clock, one second apart across a minute boundary. *)
Definition t_a : datetime :=
  {| year := 2024; month := 5; day := 17; hour := 10; minute := 0;
     second := 59; microsecond := 0; posix := 1715940059 |}.

Definition t_b : datetime :=
  {| year := 2024; month := 5; day := 17; hour := 10; minute := 1;
     second := 0; microsecond := 250; posix := 1715940060 |}.

(** A reading 900 microseconds after [t_a], within the same minute. *)
Definition t_c : datetime :=
  {| year := 2024; month := 5; day := 17; hour := 10; minute := 0;
     second := 59; microsecond := 900; posix := 1715940059 |}.

(** Everything happens within the second of [t_a]. *)
Definition frozen (n : nat) : datetime := t_a.

(** The first two readings fall at [t_a], the later ones at [t_b]. *)
Definition ticking (n : nat) : datetime := if n <? 2 then t_a else t_b.

(** The minute turns between consultation 4 and consultation 5. *)
Definition turning (n : nat) : datetime := if n <? 5 then t_a else t_b.

(** Consultations up to 5 read [t_a], later ones [t_c]: same minute. *)
Definition same_minute (n : nat) : datetime := if n <? 6 then t_a else t_c.

(** A model that answers every request with the two chunks "ok", "!". *)
Definition echo (n : nat) (model : string) (h : list Content) : stream :=
  {| chunks := [Some "ok"; None; Some "!"]; failure := None |}.

Definition say (text : string) : request :=
  POST_chat (Json [("message", JStr text)]).

(** The id of the first session created at [t_a]. *)
Definition first_id : string := "session_1_1715940059".

(** One message has been exchanged, under the given clock. *)
Definition after_hi (clock : nat -> datetime) : world :=
  serve clock echo [say "hi"] initial.

(** The session stored in [after_hi frozen]. *)
Definition hi_session : session :=
  {| history := [ {| role := "user"; parts := [from_text "hi"] |};
                  {| role := "model"; parts := [from_text "ok!"] |} ];
     created_at := "2024-05-17T10:00:59";
     title := "hi";
     pinned := false |}.

(** Two sessions created within one second; the second one is current. *)
Definition two_sessions : world :=
  serve frozen echo [POST_sessions; POST_sessions] initial.

(** A rename to a padded title together with a pin given as a number. *)
Definition rename_and_pin : PyDict.t json :=
  [("title", JStr "  Hello "); ("pinned", JNum 1)].

(** A message made of blanks only. *)
Definition blank_message : chat_request := Json [("message", JStr "   ")].

(** The timestamps of the messages in an answer of [get_session]. *)
Definition timestamps (r : result response) : list string :=
  match r with
  | Ok (SessionDetail _ _ _ messages) => map Msg.timestamp messages
  | _ => []
  end.

(** An upload that declares no content type. *)
Definition bare_png : FileStorage :=
  {| filename := Some "photo.png"; mimetype := EmptyString; content := [] |}.

(** An upload declared as generic binary, and one declared as a GIF. *)
Definition binary_jpeg : FileStorage :=
  {| filename := Some "Scan.JPEG"; mimetype := "application/octet-stream";
     content := [] |}.

Definition gif_named_png : FileStorage :=
  {| filename := Some "anim.png"; mimetype := "image/gif"; content := [] |}.

End Scenario.

(* ================================================================== *)
(** ** Vocabulary of the further properties *)

(** A string in which every whitespace code point is a plain space and no
    whitespace follows whitespace; [prev] tells whether the code point
    before the string was whitespace. *)
Fixpoint spaced (prev : bool) (s : string) : bool :=
  match s with
  | EmptyString => true
  | String c s' =>
      if PyStr.isspace c
      then Ascii.eqb c " " && negb prev && spaced true s'
      else spaced false s'
  end.

(** Single-spaced, and not beginning with whitespace. *)
Definition single_spaced (s : string) : bool := spaced true s.

(** The texts of the chunks that carry one, in order. *)
Definition chunk_texts (l : list (option string)) : list string :=
  flat_map (fun c => match c with Some t => [t] | None => [] end) l.

(** The entries of a list that share the sort key [k]. *)
Definition with_key (k : bool * string) (l : list Item.t) : list Item.t :=
  filter (fun x => Bool.eqb (fst (sort_key x)) (fst k)
                   && String.eqb (snd (sort_key x)) (snd k)) l.

(** A JSON field holding something truthy that is not a string: what
    [(v or '').strip()] chokes on. *)
Definition not_a_string (v : option json) : Prop :=
  exists j, v = Some j /\ json_truthy j = true /\ forall t, j <> JStr t.

Module Fixture.


(** A stream with an empty and a missing chunk text between two words. *)
Definition gappy : stream :=
  {| chunks := [Some "Hel"; None; Some EmptyString; Some "lo"];
     failure := None |}.

(** Two sessions, the first of which has been talked to and is current. *)
Definition busy : world :=
  serve Scenario.frozen Scenario.echo
    [POST_sessions; POST_sessions;
     POST_switch_session Scenario.first_id; Scenario.say "hello"]
    initial.

(** The id of the second session created at [t_a]. *)
Definition second_id : string := "session_2_1715940059".

(** The first session of [busy]. *)
Definition busy_first : session :=
  {| history := [ {| role := "user"; parts := [from_text "hello"] |};
                  {| role := "model"; parts := [from_text "ok!"] |} ];
     created_at := "2024-05-17T10:00:59";
     title := "hello";
     pinned := false |}.

(** The second session of [busy] and of [Scenario.two_sessions]. *)
Definition idle_second : session :=
  {| history := []; created_at := "2024-05-17T10:00:59";
     title := "New Chat 2"; pinned := false |}.

(** A message with a picture attached, and the same file unnamed. *)
Definition picture : FileStorage :=
  {| filename := Some "Cat.PNG"; mimetype := EmptyString; content := [] |}.

Definition unnamed : FileStorage :=
  {| filename := Some EmptyString; mimetype := "image/png"; content := [] |}.

Definition with_picture : chat_request :=
  Multipart (Some " look ") [unnamed; picture].

(** A plain JSON message. *)
Definition again : chat_request := Json [("message", JStr "again")].


End Fixture.

(* ================================================================== *)
(** ** Facts about the string order and the sort *)

Lemma ltb_irrefl (a : string) : PyStr.ltb a a = false.
Proof.
  unfold PyStr.ltb, String.ltb.
  destruct (String.compare a a) eqn:E; try reflexivity.
  pose proof (String.compare_antisym a a) as H.
  rewrite E in H. discriminate H.
Qed.

Lemma ltb_asym (a b : string) :
  PyStr.ltb a b = true -> PyStr.ltb b a = false.
Proof.
  unfold PyStr.ltb, String.ltb.
  rewrite (String.compare_antisym a b).
  destruct (String.compare b a); simpl; congruence.
Qed.

Lemma ltb_lt (a b : string) :
  PyStr.ltb a b = true <-> String_as_OT.lt a b.
Proof.
  unfold PyStr.ltb, String.ltb.
  rewrite <- String_as_OT.cmp_lt. unfold String_as_OT.cmp.
  destruct (String.compare a b); split; congruence.
Qed.

(** When [a] is not below [b], either they are equal or [b] is below [a]. *)
Lemma ltb_false_cases (a b : string) :
  PyStr.ltb a b = false -> a = b \/ PyStr.ltb b a = true.
Proof.
  unfold PyStr.ltb, String.ltb.
  destruct (String.compare a b) eqn:E; intro H; try discriminate H.
  - left. now apply String.compare_eq_iff.
  - right. rewrite String.compare_antisym, E. reflexivity.
Qed.

Lemma ltb_ge_trans (a b c : string) :
  PyStr.ltb a b = false -> PyStr.ltb b c = false -> PyStr.ltb a c = false.
Proof.
  intros Hab Hbc.
  destruct (PyStr.ltb a c) eqn:Hac; [exfalso | reflexivity].
  destruct (ltb_false_cases _ _ Hab) as [-> | Hba]; [congruence |].
  apply ltb_lt in Hac, Hba.
  assert (Hb : PyStr.ltb b c = true)
    by (apply ltb_lt; eapply String_as_OT.lt_trans; eauto).
  congruence.
Qed.

Lemma key_lt_asym (a b : bool * string) :
  key_lt a b = true -> key_lt b a = false.
Proof.
  destruct a as [[] sa], b as [[] sb]; unfold key_lt; simpl;
    try congruence; apply ltb_asym.
Qed.

Lemma key_ge_trans (x y z : Item.t) :
  key_ge x y -> key_ge y z -> key_ge x z.
Proof.
  unfold key_ge, key_lt.
  destruct (sort_key x) as [[] sx], (sort_key y) as [[] sy],
           (sort_key z) as [[] sz]; simpl; try congruence;
    apply ltb_ge_trans.
Qed.

Lemma insert_desc_perm (x : Item.t) (l : list Item.t) :
  Permutation (insert_desc x l) (x :: l).
Proof.
  induction l as [| y l IH]; simpl.
  - apply Permutation_refl.
  - destruct (key_lt (sort_key x) (sort_key y)).
    + eapply Permutation_trans; [apply perm_skip, IH | apply perm_swap].
    + apply Permutation_refl.
Qed.

Lemma sort_reverse_perm (l : list Item.t) :
  Permutation (sort_reverse l) l.
Proof.
  induction l as [| x l IH]; simpl.
  - constructor.
  - eapply Permutation_trans; [apply insert_desc_perm | now constructor].
Qed.

Lemma insert_desc_sorted (x : Item.t) (l : list Item.t) :
  StronglySorted key_ge l -> StronglySorted key_ge (insert_desc x l).
Proof.
  induction 1 as [| y l Hl IH Hy]; simpl.
  - repeat constructor.
  - destruct (key_lt (sort_key x) (sort_key y)) eqn:E.
    + constructor; [exact IH |].
      rewrite Forall_forall in *. intros z Hz.
      apply (Permutation_in _ (insert_desc_perm x l)) in Hz.
      destruct Hz as [<- | Hz]; [| now apply Hy].
      now apply key_lt_asym.
    + constructor; [now constructor |].
      constructor; [exact E |].
      rewrite Forall_forall in *. intros z Hz.
      eapply key_ge_trans; [exact E | now apply Hy].
Qed.

Lemma sort_reverse_sorted (l : list Item.t) :
  StronglySorted key_ge (sort_reverse l).
Proof.
  induction l as [| x l IH]; simpl.
  - constructor.
  - now apply insert_desc_sorted.
Qed.

(** In a strongly sorted list, an entry relates to every later entry. *)
Lemma StronglySorted_before {A} (R : A -> A -> Prop) (l1 l2 l3 : list A) a b :
  StronglySorted R (l1 ++ a :: l2 ++ b :: l3) -> R a b.
Proof.
  induction l1 as [| x l1 IH]; simpl; intro H.
  - inversion H as [| ? ? _ Hall]; subst.
    rewrite Forall_forall in Hall. apply Hall.
    apply in_or_app. right. now left.
  - inversion H; subst. now apply IH.
Qed.

(** [msg_count] is the number of turns whose role is ["user"]. *)
Lemma msg_count_count_occ (h : list Content) :
  msg_count h = count_occ string_dec (map role h) "user".
Proof.
  unfold msg_count.
  induction h as [| c h IH]; simpl; [reflexivity |].
  destruct (String.eqb_spec (role c) "user") as [E | E];
    destruct (string_dec (role c) "user") as [E' | E']; try congruence.
  simpl. now rewrite IH.
Qed.

(* ================================================================== *)
(** ** Trimming *)

Lemma lstrip_spec (s : string) :
  exists l, s = (l ++ PyStr.lstrip s)%string
            /\ all_space l = true
            /\ (forall c t, PyStr.lstrip s = String c t -> PyStr.isspace c = false).
Proof.
  induction s as [| c s IH]; cbn [PyStr.lstrip].
  - exists EmptyString. repeat split. discriminate.
  - destruct (PyStr.isspace c) eqn:E.
    + destruct IH as (l & H1 & H2 & H3).
      exists (String c l). cbn. rewrite E, H2, <- H1. auto.
    + exists EmptyString. repeat split. now intros c' t [= <- _].
Qed.

Lemma rstrip_spec (s : string) :
  exists r, s = (PyStr.rstrip s ++ r)%string
            /\ all_space r = true
            /\ (forall p c, PyStr.rstrip s = (p ++ String c EmptyString)%string ->
                PyStr.isspace c = false).
Proof.
  induction s as [| c s IH]; cbn [PyStr.rstrip].
  - exists EmptyString. repeat split. intros [| ? ?] ? H; discriminate H.
  - destruct IH as (r & H1 & H2 & H3).
    destruct (PyStr.isspace c && PyStr.is_empty (PyStr.rstrip s)) eqn:E.
    + apply andb_true_iff in E. destruct E as [Ec Ee].
      destruct (PyStr.rstrip s); [| discriminate Ee]. cbn in H1. subst r.
      exists (String c s). cbn. rewrite Ec, H2. repeat split.
      intros [| ? ?] ? H; discriminate H.
    + exists r. cbn. rewrite <- H1. repeat split; [exact H2 |].
      intros [| c' p] c0 H; cbn in H; injection H as Hc Hr.
      * subst c0. rewrite Hr in E. cbn in E. now rewrite andb_true_r in E.
      * eapply H3; eauto.
Qed.

Lemma rstrip_head (c : ascii) (s t : string) (c' : ascii) :
  PyStr.rstrip (String c s) = String c' t -> c' = c.
Proof.
  cbn [PyStr.rstrip].
  destruct (PyStr.isspace c && PyStr.is_empty (PyStr.rstrip s));
    [discriminate | now intros [= -> _]].
Qed.

(** [strip] removes a whitespace prefix and a whitespace suffix, and what
    is left neither begins nor ends with whitespace. *)
Lemma strip_spec (s : string) :
  exists l r,
    s = (l ++ PyStr.strip s ++ r)%string
    /\ all_space l = true /\ all_space r = true
    /\ (forall c t, PyStr.strip s = String c t -> PyStr.isspace c = false)
    /\ (forall p c, PyStr.strip s = (p ++ String c EmptyString)%string ->
        PyStr.isspace c = false).
Proof.
  unfold PyStr.strip.
  destruct (lstrip_spec s) as (l & H1 & H2 & H3).
  destruct (rstrip_spec (PyStr.lstrip s)) as (r & H4 & H5 & H6).
  exists l, r. split; [now rewrite <- H4 |].
  split; [exact H2 |]. split; [exact H5 |]. split; [| exact H6].
  intros c t H. destruct (PyStr.lstrip s) as [| c0 s0] eqn:E; [discriminate H |].
  apply rstrip_head in H. subst c. now apply (H3 c0 s0).
Qed.

(* ================================================================== *)
(** ** Facts about the [dict] *)

Section DictFacts.
Context {V : Type}.
Implicit Types (d : PyDict.t V) (k : string) (v : V).

Lemma mem_In_keys k d : PyDict.mem k d = true <-> In k (PyDict.keys d).
Proof.
  unfold PyDict.mem.
  induction d as [| [k' v'] d IH]; simpl.
  - split; [discriminate | tauto].
  - destruct (String.eqb_spec k k') as [-> | N].
    + split; auto.
    + rewrite IH. split; [auto | intros [E | H]; congruence].
Qed.

Lemma get_In k v d : PyDict.get k d = Some v -> In (k, v) d.
Proof.
  induction d as [| [k' v'] d IH]; simpl; [discriminate |].
  destruct (String.eqb_spec k k') as [-> | N].
  - intros [= ->]. now left.
  - auto.
Qed.

Lemma mem_get k d :
  PyDict.mem k d = true <-> exists v, PyDict.get k d = Some v.
Proof.
  unfold PyDict.mem. destruct (PyDict.get k d) as [v |].
  - split; eauto.
  - split; [discriminate | intros [v H]; discriminate H].
Qed.

Lemma get_set_same k v d : PyDict.get k (PyDict.set k v d) = Some v.
Proof.
  induction d as [| [k' v'] d IH]; simpl.
  - now rewrite String.eqb_refl.
  - destruct (String.eqb_spec k k') as [-> | N]; simpl.
    + now rewrite String.eqb_refl.
    + destruct (String.eqb_spec k k'); [contradiction | exact IH].
Qed.

Lemma get_set_other k k' v d :
  k' <> k -> PyDict.get k' (PyDict.set k v d) = PyDict.get k' d.
Proof.
  intro N. induction d as [| [k0 v0] d IH]; simpl.
  - destruct (String.eqb_spec k' k); [contradiction | reflexivity].
  - destruct (String.eqb_spec k k0) as [-> | N0]; simpl.
    + destruct (String.eqb_spec k' k0); [contradiction | reflexivity].
    + destruct (String.eqb_spec k' k0); [reflexivity | exact IH].
Qed.

Lemma get_del_other k k' d :
  k' <> k -> PyDict.get k' (PyDict.del k d) = PyDict.get k' d.
Proof.
  intro N. induction d as [| [k0 v0] d IH]; simpl; [reflexivity |].
  destruct (String.eqb_spec k k0) as [-> | N0]; simpl.
  - destruct (String.eqb_spec k' k0); [contradiction | reflexivity].
  - destruct (String.eqb_spec k' k0); [reflexivity | exact IH].
Qed.

(** Writing under a key that is present keeps the order of the keys. *)
Lemma keys_set_present k v d :
  PyDict.mem k d = true -> PyDict.keys (PyDict.set k v d) = PyDict.keys d.
Proof.
  unfold PyDict.mem.
  induction d as [| [k0 v0] d IH]; simpl; [discriminate |].
  destruct (String.eqb_spec k k0) as [-> | N0]; simpl; [reflexivity |].
  intro H. now rewrite IH.
Qed.

(** Writing under a new key appends it. *)
Lemma set_absent k v d :
  PyDict.mem k d = false -> PyDict.set k v d = d ++ [(k, v)].
Proof.
  unfold PyDict.mem.
  induction d as [| [k0 v0] d IH]; simpl; [reflexivity |].
  destruct (String.eqb_spec k k0) as [-> | N0]; simpl; [discriminate |].
  intro H. now rewrite IH.
Qed.

Lemma mem_set k k' v d :
  PyDict.mem k' (PyDict.set k v d) = String.eqb k' k || PyDict.mem k' d.
Proof.
  unfold PyDict.mem.
  destruct (String.eqb_spec k' k) as [-> | N]; simpl.
  - now rewrite get_set_same.
  - now rewrite get_set_other.
Qed.

Lemma set_set k v1 v2 d :
  PyDict.set k v2 (PyDict.set k v1 d) = PyDict.set k v2 d.
Proof.
  induction d as [| [k0 v0] d IH]; simpl.
  - now rewrite String.eqb_refl.
  - destruct (String.eqb_spec k k0) as [-> | N0]; simpl.
    + now rewrite String.eqb_refl.
    + destruct (String.eqb_spec k k0); [contradiction | now rewrite IH].
Qed.

Lemma first_key_mem k d :
  PyDict.first_key d = Some k -> PyDict.mem k d = true.
Proof.
  destruct d as [| [k0 v0] d]; simpl; [discriminate |].
  intros [= ->]. unfold PyDict.mem. simpl. now rewrite String.eqb_refl.
Qed.

Lemma len_set_present k v d :
  PyDict.mem k d = true -> PyDict.len (PyDict.set k v d) = PyDict.len d.
Proof.
  intro H. unfold PyDict.len.
  rewrite <- (length_map fst (PyDict.set k v d)), <- (length_map fst d).
  fold (PyDict.keys (PyDict.set k v d)). fold (PyDict.keys d).
  now rewrite keys_set_present.
Qed.

Lemma del_nil_inv k d :
  PyDict.mem k d = true -> PyDict.del k d = [] ->
  exists v, d = [(k, v)].
Proof.
  unfold PyDict.mem.
  destruct d as [| [k0 v0] d]; simpl; [discriminate |].
  destruct (String.eqb_spec k k0) as [-> | N0].
  - intros _ ->. eauto.
  - discriminate.
Qed.

Lemma NoDup_keys_set k v d :
  NoDup (PyDict.keys d) -> NoDup (PyDict.keys (PyDict.set k v d)).
Proof.
  intro H. destruct (PyDict.mem k d) eqn:E.
  - now rewrite keys_set_present.
  - rewrite set_absent by exact E. unfold PyDict.keys. rewrite map_app. simpl.
    apply NoDup_app; [exact H | repeat constructor; simpl; tauto |].
    intros a Ha [<- | []].
    apply mem_In_keys in Ha. congruence.
Qed.

Lemma keys_del_incl k d :
  incl (PyDict.keys (PyDict.del k d)) (PyDict.keys d).
Proof.
  induction d as [| [k0 v0] d IH]; simpl; [apply incl_refl |].
  destruct (String.eqb k k0); simpl.
  - apply incl_tl, incl_refl.
  - apply incl_cons; [now left | now apply incl_tl].
Qed.

Lemma NoDup_keys_del k d :
  NoDup (PyDict.keys d) -> NoDup (PyDict.keys (PyDict.del k d)).
Proof.
  induction d as [| [k0 v0] d IH]; simpl; [auto |].
  intro H. inversion H as [| ? ? Hn Hd]; subst.
  destruct (String.eqb k k0); simpl; [exact Hd |].
  constructor; [| now apply IH].
  intro Hin. apply Hn. now apply (keys_del_incl k d).
Qed.

End DictFacts.

(* ================================================================== *)
(** ** What the helpers do to the globals *)

Ltac run :=
  cbv [bind ret raise sessions_now current_now set_sessions set_current
       now now_time call_model new_session_title]; cbn [fst snd].

Section Helpers.

Variable clock : nat -> datetime.
Variable generate_content_stream : nat -> string -> list Content -> stream.

Lemma create_session_object_run (w : world) :
  create_session_object clock w =
  (Ok (next_id clock w),
   {| chat_sessions := PyDict.set (next_id clock w) (fresh_session clock w) (chat_sessions w);
      current_session_id := current_session_id w;
      reads := S (S (reads w)) |}).
Proof. reflexivity. Qed.

Lemma world_eta (w : world) :
  {| chat_sessions := chat_sessions w;
     current_session_id := current_session_id w;
     reads := reads w |} = w.
Proof. now destruct w. Qed.

Lemma session_at_run (w : world) c s :
  PyDict.get c (chat_sessions w) = Some s ->
  session_at (Some c) w = (Ok s, w).
Proof. unfold session_at. now intros ->. Qed.

Lemma mutate_run (w : world) sid f s :
  PyDict.get sid (chat_sessions w) = Some s ->
  mutate sid f w =
  (Ok tt, {| chat_sessions := PyDict.set sid (f s) (chat_sessions w);
             current_session_id := current_session_id w;
             reads := reads w |}).
Proof. unfold mutate. now intros ->. Qed.

Lemma mutate_current_run (w : world) c f s :
  current_session_id w = Some c ->
  PyDict.get c (chat_sessions w) = Some s ->
  mutate_current f w =
  (Ok tt, {| chat_sessions := PyDict.set c (f s) (chat_sessions w);
             current_session_id := Some c;
             reads := reads w |}).
Proof.
  intros Hc Hs. unfold mutate_current. run. rewrite Hc.
  rewrite (mutate_run _ _ _ _ Hs). now rewrite Hc.
Qed.

Lemma get_or_create_default_session_empty (w : world) :
  chat_sessions w = [] ->
  get_or_create_default_session clock w =
  (Ok (fresh_session clock w),
   {| chat_sessions := [(next_id clock w, fresh_session clock w)];
      current_session_id := Some (next_id clock w);
      reads := S (S (reads w)) |}).
Proof.
  intro E. unfold get_or_create_default_session. run. rewrite E.
  cbn [PyDict.is_empty]. rewrite create_session_object_run.
  unfold session_at. cbn [chat_sessions current_session_id]. rewrite E.
  cbn [PyDict.set PyDict.get]. now rewrite String.eqb_refl.
Qed.

Lemma get_or_create_default_session_present (w : world) c s :
  chat_sessions w <> [] ->
  current_session_id w = Some c ->
  PyDict.get c (chat_sessions w) = Some s ->
  get_or_create_default_session clock w = (Ok s, w).
Proof.
  intros N Hc Hs. unfold get_or_create_default_session. run.
  destruct (chat_sessions w) eqn:E; [contradiction |]. cbn.
  rewrite Hc. unfold session_at. rewrite E, <- E at 1.
  rewrite <- E in Hs. now rewrite Hs.
Qed.

Lemma mapM_message_view_run (h : list Content) (w : world) :
  mapM (message_view clock) h w =
  (Ok (messages_at clock (reads w) h),
   {| chat_sessions := chat_sessions w;
      current_session_id := current_session_id w;
      reads := List.length h + reads w |}).
Proof.
  revert w. induction h as [| c h IH]; intro w; cbn [mapM messages_at List.length].
  - run. now rewrite world_eta.
  - unfold message_view at 1. run. rewrite IH. cbn.
    now rewrite Nat.add_succ_r.
Qed.

(** [chat] on an input that is not empty, from the state [w1] in which
    [get_or_create_default_session] has returned the current session. *)
Lemma chat_run (w w1 : world) req user_text image_parts c s :
  chat_input req = Ok (user_text, image_parts) ->
  negb (PyStr.truthy user_text)
  && match image_parts with [] => true | _ => false end = false ->
  get_or_create_default_session clock w = (Ok s, w1) ->
  current_session_id w1 = Some c ->
  PyDict.get c (chat_sessions w1) = Some s ->
  let h1 := history s ++ [user_turn user_text image_parts] in
  let reply :=
    reply_of (generate_content_stream (reads w1) (model_for image_parts) h1) in
  chat clock generate_content_stream req w =
  (Ok (ChatReply reply (strftime_HM (clock (S (reads w1))))),
   {| chat_sessions :=
        PyDict.set c {| history := h1 ++ [model_turn reply];
                        created_at := created_at s;
                        title := auto_title (title s) user_text;
                        pinned := pinned s |} (chat_sessions w1);
      current_session_id := Some c;
      reads := S (S (reads w1)) |}).
Proof.
  intros Hin Hne Hg Hc Hs h1 reply.
  unfold chat. rewrite Hin, Hne. unfold bind at 1. rewrite Hg.
  unfold bind at 1. rewrite (mutate_current_run _ _ _ _ Hc Hs).
  fold (user_turn user_text image_parts). fold h1.
  set (s1 := set_history h1 s).
  set (w2 := {| chat_sessions := PyDict.set c s1 (chat_sessions w1);
                current_session_id := Some c; reads := reads w1 |}).
  assert (Hc2 : current_session_id w2 = Some c) by reflexivity.
  assert (Hs2 : PyDict.get c (chat_sessions w2) = Some s1)
    by apply get_set_same.
  set (s2 := set_title (auto_title (title s) user_text) s1).
  set (w3 := {| chat_sessions := PyDict.set c s2 (chat_sessions w1);
                current_session_id := Some c; reads := reads w1 |}).
  assert (Ht : (if PyStr.startswith (title s) "New Chat" && PyStr.truthy user_text
                then match slug_from_text user_text 40 with
                     | Some maybe => mutate_current (set_title maybe)
                     | None => ret tt
                     end
                else ret tt) w2 = (Ok tt, w3)).
  { unfold w3, s2, auto_title.
    destruct (PyStr.startswith (title s) "New Chat" && PyStr.truthy user_text).
    - destruct (slug_from_text user_text 40) as [maybe |].
      + rewrite (mutate_current_run _ _ _ _ Hc2 Hs2). unfold w2. cbn.
        now rewrite set_set.
      + reflexivity.
    - reflexivity. }
  unfold bind at 1. rewrite Ht.
  assert (Hc3 : current_session_id w3 = Some c) by reflexivity.
  assert (Hs3 : PyDict.get c (chat_sessions w3) = Some s2)
    by apply get_set_same.
  run. rewrite Hc3. rewrite (session_at_run _ _ _ Hs3).
  fold (model_for image_parts).
  replace (history s2) with h1 by reflexivity.
  replace (reads w3) with (reads w1) by reflexivity. fold reply.
  match goal with
  | |- context [mutate_current ?f ?w] =>
      rewrite (mutate_current_run w c f s2 eq_refl (get_set_same _ _ _))
  end.
  cbn. now rewrite set_set.
Qed.

End Helpers.

(* ================================================================== *)
(** ** The registry invariant holds in every reachable state *)

Lemma well_formed_keys (w w' : world) :
  PyDict.keys (chat_sessions w') = PyDict.keys (chat_sessions w) ->
  current_session_id w' = current_session_id w ->
  well_formed w -> well_formed w'.
Proof.
  intros Hk Hc [Hcur Hnd]. split.
  - unfold current_exists in *. rewrite Hc.
    destruct (current_session_id w) as [c |].
    + apply mem_In_keys. rewrite Hk. now apply mem_In_keys.
    + rewrite Hcur in Hk. destruct (chat_sessions w'); [reflexivity | discriminate].
  - now rewrite Hk.
Qed.

Lemma well_formed_set_current (w : world) c v n :
  NoDup (PyDict.keys (chat_sessions w)) ->
  well_formed {| chat_sessions := PyDict.set c v (chat_sessions w);
                 current_session_id := Some c; reads := n |}.
Proof.
  intro Hnd. split.
  - unfold current_exists. cbn. rewrite mem_set. now rewrite String.eqb_refl.
  - cbn. now apply NoDup_keys_set.
Qed.

Lemma well_formed_current (w : world) :
  well_formed w -> chat_sessions w <> [] ->
  exists c s, current_session_id w = Some c
              /\ PyDict.get c (chat_sessions w) = Some s.
Proof.
  intros [Hcur _] N. unfold current_exists in Hcur.
  destruct (current_session_id w) as [c |]; [| contradiction].
  apply mem_get in Hcur. destruct Hcur as [s Hs]. eauto.
Qed.

Section Invariant.

Variable clock : nat -> datetime.
Variable generate_content_stream : nat -> string -> list Content -> stream.

Lemma get_or_create_default_session_ok (w : world) :
  well_formed w ->
  exists c s w1,
    get_or_create_default_session clock w = (Ok s, w1)
    /\ current_session_id w1 = Some c
    /\ PyDict.get c (chat_sessions w1) = Some s
    /\ well_formed w1
    /\ (chat_sessions w <> [] -> w1 = w).
Proof.
  intro Hwf. destruct (chat_sessions w) eqn:E.
  - exists (next_id clock w), (fresh_session clock w).
    eexists. rewrite get_or_create_default_session_empty by exact E.
    repeat split; cbn; try tauto.
    + now rewrite String.eqb_refl.
    + unfold current_exists, PyDict.mem. cbn. now rewrite String.eqb_refl.
    + repeat constructor. simpl. tauto.
  - assert (N : chat_sessions w <> []) by (rewrite E; discriminate).
    destruct (well_formed_current w Hwf N) as (c & s & Hc & Hs).
    exists c, s, w.
    rewrite (get_or_create_default_session_present clock w c s N Hc Hs).
    rewrite <- E. auto.
Qed.

Lemma create_session_well_formed (w : world) :
  well_formed w -> well_formed (snd (create_session clock w)).
Proof.
  intros [_ Hnd]. unfold create_session. unfold bind at 1.
  rewrite create_session_object_run. run.
  unfold session_at. cbn [chat_sessions]. rewrite get_set_same. cbn [snd].
  now apply well_formed_set_current.
Qed.

Lemma update_session_well_formed (w : world) sid data :
  well_formed w -> well_formed (snd (update_session sid data w)).
Proof.
  intro Hwf. unfold update_session. run.
  destruct (PyDict.mem sid (chat_sessions w)) eqn:Hm; cbn [negb];
    [| exact Hwf].
  destruct (proj1 (mem_get _ _) Hm) as [s Hs].
  assert (Hstep : forall w0 f,
             well_formed w0 -> PyDict.mem sid (chat_sessions w0) = true ->
             well_formed (snd (mutate sid f w0))
             /\ PyDict.mem sid (chat_sessions (snd (mutate sid f w0))) = true).
  { intros w0 f Hw0 Hm0. destruct (proj1 (mem_get _ _) Hm0) as [s0 Hs0].
    rewrite (mutate_run _ _ _ _ Hs0). cbn [snd chat_sessions]. split.
    - eapply well_formed_keys; [| | exact Hw0];
        cbn [chat_sessions current_session_id];
        [now apply keys_set_present | reflexivity].
    - rewrite mem_set. now rewrite String.eqb_refl. }
  destruct (PyDict.get "title" data) as [v |].
  - destruct (or_empty_strip (Some v)) as [t | e]; [| exact Hwf].
    rewrite (session_at_run _ _ _ Hs).
    destruct (Hstep w (set_title (if PyStr.truthy t then t else title s)) Hwf Hm)
      as [H1 H2].
    destruct (mutate sid _ w) as [[[] | e] w1] eqn:Em; cbn [snd] in *; [| exact H1].
    destruct (PyDict.get "pinned" data) as [p |]; [| exact H1].
    destruct (Hstep w1 (set_pinned (json_truthy p)) H1 H2) as [H3 _].
    destruct (mutate sid _ w1) as [[[] | e] w2]; exact H3.
  - destruct (PyDict.get "pinned" data) as [p |]; [| exact Hwf].
    destruct (Hstep w (set_pinned (json_truthy p)) Hwf Hm) as [H3 _].
    destruct (mutate sid _ w) as [[[] | e] w2]; exact H3.
Qed.

(** What [delete_session] does on an id that is stored. *)
Lemma delete_session_run (w : world) sid :
  well_formed w ->
  PyDict.mem sid (chat_sessions w) = true ->
  let rest := PyDict.del sid (chat_sessions w) in
  exists cur w',
    delete_session clock sid w = (Ok (Deleted (Some cur)), w')
    /\ current_session_id w' = Some cur
    /\ well_formed w'
    /\ (current_session_id w <> Some sid ->
        current_session_id w = Some cur
        /\ chat_sessions w' = rest /\ reads w' = reads w)
    /\ (current_session_id w = Some sid -> rest <> [] ->
        PyDict.first_key rest = Some cur
        /\ chat_sessions w' = rest /\ reads w' = reads w)
    /\ (rest = [] ->
        current_session_id w = Some sid
        /\ cur = ("session_1_" ++ PyStr.of_Z (posix (clock (reads w))))%string
        /\ chat_sessions w' =
             [(cur, {| history := [];
                       created_at := isoformat (clock (S (reads w)));
                       title := "New Chat 1";
                       pinned := false |})]
        /\ reads w' = S (S (reads w))).
Proof.
  intros Hwf Hm rest.
  assert (N : chat_sessions w <> []).
  { intro E. rewrite E in Hm. discriminate Hm. }
  destruct (well_formed_current w Hwf N) as (c & s & Hc & Hs).
  destruct Hwf as [_ Hnd].
  assert (Hndr : NoDup (PyDict.keys rest)) by now apply NoDup_keys_del.
  unfold delete_session. run. rewrite Hm. cbn [negb]. rewrite Hc.
  cbn [current_session_id chat_sessions reads]. fold rest.
  destruct (String.eqb_spec c sid) as [-> | Nc].
  - destruct rest as [| [k v] rest'] eqn:Er.
    + cbn [PyDict.first_key current_session_id chat_sessions reads].
      cbv beta iota.
      eexists _, _. split.
      { rewrite create_session_object_run. cbv beta iota.
        cbn [snd fst current_session_id chat_sessions reads]. reflexivity. }
      cbn [current_session_id chat_sessions reads].
      split; [reflexivity |]. split.
      { split; [| repeat constructor; simpl; tauto].
        unfold current_exists, PyDict.mem. cbn. now rewrite String.eqb_refl. }
      split; [congruence |]. split; [congruence |].
      intros _. repeat split.
    + cbn [PyDict.first_key current_session_id chat_sessions reads].
      cbv beta iota.
      eexists _, _. split; [reflexivity |].
      cbn [current_session_id chat_sessions reads].
      split; [reflexivity |]. split.
      { split; [| exact Hndr].
        unfold current_exists, PyDict.mem. cbn. now rewrite String.eqb_refl. }
      split; [congruence |]. split; [auto |]. discriminate.
  - eexists _, _. split; [reflexivity |].
    cbn [current_session_id chat_sessions reads].
    assert (Hmr : PyDict.mem c rest = true).
    { unfold PyDict.mem, rest. rewrite get_del_other by exact Nc. now rewrite Hs. }
    split; [reflexivity |]. split; [split; [exact Hmr | exact Hndr] |].
    split; [auto |]. split; [congruence |].
    intro E. rewrite E in Hmr. discriminate Hmr.
Qed.

Lemma handle_well_formed (r : request) (w : world) :
  well_formed w ->
  well_formed (snd (handle clock generate_content_stream r w)).
Proof.
  intro Hwf. destruct r as [| | sid | | sid data | sid | sid | | req]; cbn [handle].
  - (* index *)
    destruct (get_or_create_default_session_ok w Hwf)
      as (c & s & w1 & Hg & _ & _ & Hw1 & _).
    unfold index. run. now rewrite Hg.
  - (* get_sessions *) exact Hwf.
  - (* get_session *)
    unfold get_session. run.
    destruct (PyDict.mem sid (chat_sessions w)) eqn:Hm; cbn [negb]; [| exact Hwf].
    destruct (proj1 (mem_get _ _) Hm) as [s Hs].
    rewrite (session_at_run _ _ _ Hs), mapM_message_view_run. cbn [snd].
    eapply well_formed_keys; [| | exact Hwf]; reflexivity.
  - (* create_session *) now apply create_session_well_formed.
  - (* update_session *) now apply update_session_well_formed.
  - (* delete_session *)
    destruct (PyDict.mem sid (chat_sessions w)) eqn:Hm.
    + destruct (delete_session_run w sid Hwf Hm) as (cur & w' & Hd & _ & Hw' & _).
      now rewrite Hd.
    + unfold delete_session. run. now rewrite Hm.
  - (* switch_session *)
    unfold switch_session. run.
    destruct (PyDict.mem sid (chat_sessions w)) eqn:Hm; cbn [negb snd]; [| exact Hwf].
    split; [exact Hm | apply Hwf].
  - (* reset *)
    destruct (get_or_create_default_session_ok w Hwf)
      as (c & s & w1 & Hg & Hc & Hs & Hw1 & _).
    unfold reset. unfold bind at 1. rewrite Hg.
    unfold bind at 1. rewrite (mutate_current_run _ _ _ _ Hc Hs). run.
    eapply well_formed_keys; [| | exact Hw1]; cbn [chat_sessions current_session_id].
    + apply keys_set_present. apply mem_get. eauto.
    + now rewrite Hc.
  - (* chat *)
    destruct (chat_input req) as [[user_text image_parts] | e] eqn:Hin.
    + destruct (negb (PyStr.truthy user_text)
                && match image_parts with [] => true | _ => false end) eqn:Hne.
      * unfold chat. rewrite Hin, Hne. run.
        eapply well_formed_keys; [| | exact Hwf]; reflexivity.
      * destruct (get_or_create_default_session_ok w Hwf)
          as (c & s & w1 & Hg & Hc & Hs & Hw1 & _).
        rewrite (chat_run clock generate_content_stream w w1 req _ _ c s
                   Hin Hne Hg Hc Hs). cbn [snd].
        eapply well_formed_keys; [| | exact Hw1];
          cbn [chat_sessions current_session_id].
        -- apply keys_set_present. apply mem_get. eauto.
        -- now rewrite Hc.
    + unfold chat. rewrite Hin. exact Hwf.
Qed.

(** The invariant of the registry. *)
Lemma reachable_well_formed (w : world) :
  reachable clock generate_content_stream w -> well_formed w.
Proof.
  induction 1 as [| w r _ IH].
  - split; [reflexivity | constructor].
  - now apply handle_well_formed.
Qed.

End Invariant.

(* ================================================================== *)
(** ** The session registry *)

Lemma NoDup_keys_get {V} (d : PyDict.t V) k v :
  NoDup (PyDict.keys d) -> In (k, v) d -> PyDict.get k d = Some v.
Proof.
  induction d as [| [k0 v0] d IH]; simpl; [tauto |].
  intros Hnd [E | Hin].
  - inversion E; subst. now rewrite String.eqb_refl.
  - inversion Hnd as [| ? ? Hn Hd]; subst.
    destruct (String.eqb_spec k k0) as [-> | N].
    + exfalso. apply Hn. apply (in_map fst) in Hin. exact Hin.
    + now apply IH.
Qed.

Section Registry.

Variable clock : nat -> datetime.
Variable generate_content_stream : nat -> string -> list Content -> stream.

Lemma reachable_serve (rs : list request) (w : world) :
  reachable clock generate_content_stream w ->
  reachable clock generate_content_stream
    (serve clock generate_content_stream rs w).
Proof.
  revert w. induction rs as [| r rs IH]; intros w H; cbn; [exact H |].
  apply IH. now constructor.
Qed.

(** C5. [get_or_create_default_session] is idempotent: on the empty
    registry it stores exactly one session and makes it current; on a
    registry that is not empty it returns the current session and leaves
    the globals as they are; hence a second call right after any call
    returns the same session and changes nothing. *)
Theorem get_or_create_default_session_idempotent (w : world) :
  reachable clock generate_content_stream w ->
  (chat_sessions w = [] ->
   exists sid s w',
     get_or_create_default_session clock w = (Ok s, w')
     /\ chat_sessions w' = [(sid, s)]
     /\ current_session_id w' = Some sid)
  /\ (chat_sessions w <> [] ->
      exists sid s,
        current_session_id w = Some sid
        /\ PyDict.get sid (chat_sessions w) = Some s
        /\ get_or_create_default_session clock w = (Ok s, w))
  /\ (forall r w',
        get_or_create_default_session clock w = (r, w') ->
        get_or_create_default_session clock w' = (r, w')).
Proof.
  intro Hr. pose proof (reachable_well_formed _ _ _ Hr) as Hwf.
  split; [| split].
  - intro E. eexists _, _, _.
    rewrite get_or_create_default_session_empty by exact E.
    repeat split.
  - intro N. destruct (well_formed_current w Hwf N) as (c & s & Hc & Hs).
    exists c, s. repeat split; try assumption.
    now apply get_or_create_default_session_present with (c := c).
  - intros r w' H.
    destruct (get_or_create_default_session_ok clock w Hwf)
      as (c & s & w1 & Hg & Hc & Hs & _ & _).
    rewrite Hg in H. inversion H; subst r w'.
    apply get_or_create_default_session_present with (c := c); auto.
    intro E. rewrite E in Hs. discriminate Hs.
Qed.

(** C4. After [DELETE /api/sessions/{id}] on a stored id the answer is 200
    and the current id names a stored session: an id other than the current
    one leaves the pointer alone; deleting the current session while others
    remain repoints it to one of them; emptying the registry stores a fresh
    default session and makes it current. *)
Theorem delete_session_current_stored (w : world) (sid : string) :
  reachable clock generate_content_stream w ->
  PyDict.mem sid (chat_sessions w) = true ->
  let rest := PyDict.del sid (chat_sessions w) in
  exists cur w',
    delete_session clock sid w = (Ok (Deleted (Some cur)), w')
    /\ status_code (Deleted (Some cur)) = 200
    /\ current_session_id w' = Some cur
    /\ PyDict.mem cur (chat_sessions w') = true
    /\ (current_session_id w <> Some sid ->
        current_session_id w = Some cur /\ chat_sessions w' = rest)
    /\ (current_session_id w = Some sid -> rest <> [] ->
        chat_sessions w' = rest /\ In cur (PyDict.keys rest))
    /\ (rest = [] ->
        current_session_id w = Some sid
        /\ exists s, chat_sessions w' = [(cur, s)]
                     /\ history s = [] /\ title s = "New Chat 1"
                     /\ pinned s = false).
Proof.
  intros Hr Hm rest. pose proof (reachable_well_formed _ _ _ Hr) as Hwf.
  destruct (delete_session_run clock w sid Hwf Hm)
    as (cur & w' & Hd & Hc & [Hcur _] & Hother & Hsame & Hempty).
  exists cur, w'. split; [exact Hd |]. split; [reflexivity |].
  split; [exact Hc |]. split.
  { unfold current_exists in Hcur. now rewrite Hc in Hcur. }
  split; [| split].
  - intro N. destruct (Hother N) as (H1 & H2 & _). auto.
  - intros E N. destruct (Hsame E N) as (H1 & H2 & _). split; [exact H2 |].
    apply mem_In_keys. now apply first_key_mem.
  - intro E. destruct (Hempty E) as (H1 & H2 & H3 & _). split; [exact H1 |].
    eexists. split; [exact H3 |]. repeat split.
Qed.

(** C6. In the list answered by [GET /api/sessions] every stored session
    has an entry, and every entry carrying a session's id has as
    [message_count] the number of turns of that session whose role is
    "user"; turns with any other role are not counted. *)
Theorem get_sessions_message_count (w : world) (sid : string) (s : session) :
  reachable clock generate_content_stream w ->
  PyDict.get sid (chat_sessions w) = Some s ->
  exists items,
    get_sessions w = (Ok (Sessions items (current_session_id w)), w)
    /\ List.length items = PyDict.len (chat_sessions w)
    /\ (exists it, In it items /\ Item.id it = sid)
    /\ (forall it, In it items -> Item.id it = sid ->
        Item.message_count it
        = count_occ string_dec (map role (history s)) "user").
Proof.
  intros Hr Hs. pose proof (reachable_well_formed _ _ _ Hr) as [_ Hnd].
  exists (sort_reverse (map item_of (chat_sessions w))).
  split; [reflexivity |]. split; [| split].
  - rewrite (Permutation_length (sort_reverse_perm _)). apply length_map.
  - exists (item_of (sid, s)). split; [| reflexivity].
    apply (Permutation_in _ (Permutation_sym (sort_reverse_perm _))).
    apply in_map. now apply get_In.
  - intros it Hin Hid.
    apply (Permutation_in _ (sort_reverse_perm _)) in Hin.
    apply in_map_iff in Hin. destruct Hin as ([k s'] & <- & Hin).
    cbn in Hid. subst k.
    rewrite (NoDup_keys_get _ _ _ Hnd Hin) in Hs. inversion Hs; subst s'.
    cbn. apply msg_count_count_occ.
Qed.

End Registry.

(* ================================================================== *)
(** ** Renaming and pinning *)

Lemma or_empty_strip_title (v : json) :
  (json_truthy v = true -> exists t, v = JStr t) ->
  or_empty_strip (Some v)
  = Ok (match v with JStr t => PyStr.strip t | _ => EmptyString end).
Proof.
  intro H. unfold or_empty_strip.
  destruct (json_truthy v) eqn:E.
  - destruct (H eq_refl) as [t ->]. reflexivity.
  - destruct v as [| b | z | t | l | l]; try reflexivity.
    destruct t; [reflexivity | discriminate E].
Qed.

(** C7. [PUT /api/sessions/{id}] answers 404 exactly when the id is not
    stored, and then changes nothing.  On a stored id, with a title that
    is a string (or a falsy value, or absent), the stored title becomes
    the trimmed string when that is not empty and stays as it was
    otherwise; [pinned], when given, becomes the truth value of what was
    sent; history, creation time, the other sessions, the order of the
    registry and the current id stay as they were. *)
Theorem update_session_spec (w : world) (sid : string) (data : PyDict.t json) :
  (fst (update_session sid data w) = Ok NotFound
   <-> PyDict.mem sid (chat_sessions w) = false)
  /\ (PyDict.mem sid (chat_sessions w) = false ->
      update_session sid data w = (Ok NotFound, w)
      /\ status_code NotFound = 404)
  /\ (forall s,
        PyDict.get sid (chat_sessions w) = Some s ->
        match PyDict.get "title" data with
        | Some v => json_truthy v = true -> exists t, v = JStr t
        | None => True
        end ->
        exists w',
          update_session sid data w = (Ok OkTrue, w')
          /\ PyDict.get sid (chat_sessions w')
             = Some {| history := history s;
                       created_at := created_at s;
                       title :=
                         match PyDict.get "title" data with
                         | Some (JStr t) =>
                             if PyStr.is_empty (PyStr.strip t)
                             then title s else PyStr.strip t
                         | _ => title s
                         end;
                       pinned :=
                         match PyDict.get "pinned" data with
                         | Some v => json_truthy v
                         | None => pinned s
                         end |}
          /\ (forall k, k <> sid ->
              PyDict.get k (chat_sessions w') = PyDict.get k (chat_sessions w))
          /\ PyDict.keys (chat_sessions w') = PyDict.keys (chat_sessions w)
          /\ current_session_id w' = current_session_id w).
Proof.
  split; [| split].
  - unfold update_session. run.
    destruct (PyDict.mem sid (chat_sessions w)) eqn:Hm; cbn [negb].
    + split; [| discriminate]. intro H. exfalso.
      destruct (PyDict.get "title" data) as [v |].
      * destruct (or_empty_strip (Some v)) as [t | e]; [| discriminate H].
        destruct (session_at (Some sid) w) as [[s | e] w1]; [| discriminate H].
        destruct (mutate sid _ w1) as [[[] | e] w2]; [| discriminate H].
        destruct (PyDict.get "pinned" data) as [p |]; [| discriminate H].
        destruct (mutate sid _ w2) as [[[] | e] w3]; discriminate H.
      * destruct (PyDict.get "pinned" data) as [p |]; [| discriminate H].
        destruct (mutate sid _ w) as [[[] | e] w3]; discriminate H.
    + split; reflexivity.
  - intro Hm. unfold update_session. run. rewrite Hm. split; reflexivity.
  - intros s Hs Ht.
    assert (Hm : PyDict.mem sid (chat_sessions w) = true)
      by (apply mem_get; eauto).
    unfold update_session. run. rewrite Hm. cbn [negb].
    destruct (PyDict.get "title" data) as [v |].
    + rewrite (or_empty_strip_title v Ht).
      rewrite (session_at_run _ _ _ Hs), (mutate_run _ _ _ _ Hs).
      set (t' := match v with
                 | JStr t => if PyStr.is_empty (PyStr.strip t)
                             then title s else PyStr.strip t
                 | _ => title s
                 end).
      assert (Et : (if PyStr.truthy
                      match v with JStr t => PyStr.strip t | _ => EmptyString end
                    then
                      match v with JStr t => PyStr.strip t | _ => EmptyString end
                    else title s) = t').
      { unfold t', PyStr.truthy. destruct v; try reflexivity.
        now destruct (PyStr.strip s0). }
      rewrite Et.
      destruct (PyDict.get "pinned" data) as [p |].
      * match goal with
        | |- context [mutate sid ?f ?w0] =>
            rewrite (mutate_run w0 sid f (set_title t' s) (get_set_same _ _ _))
        end.
        cbn [chat_sessions current_session_id reads].
        eexists. split; [reflexivity |]. cbn [chat_sessions current_session_id].
        rewrite set_set. split; [apply get_set_same |].
        split; [intros k N; now apply get_set_other |].
        split; [now apply keys_set_present | reflexivity].
      * eexists. split; [reflexivity |]. cbn [chat_sessions current_session_id].
        split; [apply get_set_same |].
        split; [intros k N; now apply get_set_other |].
        split; [now apply keys_set_present | reflexivity].
    + destruct (PyDict.get "pinned" data) as [p |].
      * rewrite (mutate_run _ _ _ _ Hs).
        eexists. split; [reflexivity |]. cbn [chat_sessions current_session_id].
        split; [apply get_set_same |].
        split; [intros k N; now apply get_set_other |].
        split; [now apply keys_set_present | reflexivity].
      * exists w. split; [reflexivity |].
        split; [rewrite Hs; now destruct s |].
        repeat split.
Qed.

(** A title that is neither a string nor falsy makes the handler raise
    before anything is written. *)
Lemma update_session_title_not_str (w : world) sid data v :
  PyDict.mem sid (chat_sessions w) = true ->
  PyDict.get "title" data = Some v ->
  json_truthy v = true ->
  (forall t, v <> JStr t) ->
  update_session sid data w = (Raise AttributeError, w).
Proof.
  intros Hm Hv Ht Hn. unfold update_session. run. rewrite Hm, Hv. cbn [negb].
  unfold or_empty_strip. rewrite Ht.
  destruct v; try reflexivity. now destruct (Hn s).
Qed.

(* ================================================================== *)
(** ** The chat endpoint *)

Lemma strip_empty_not_truthy (t : string) :
  PyStr.strip t = EmptyString -> PyStr.truthy (PyStr.strip t) = false.
Proof. now intros ->. Qed.

Section Chat.

Variable clock : nat -> datetime.
Variable generate_content_stream : nat -> string -> list Content -> stream.

(** C8. A [/chat] request whose text is empty after trimming (or missing,
    or a falsy JSON value) and that carries no image is answered 200 with
    the fixed prompt and the time of the clock; no session is created and
    no history changes. *)
Theorem chat_empty_input (w : world) (req : chat_request) :
  match req with
  | Multipart m files =>
      PyStr.strip (match m with Some t => t | None => EmptyString end)
      = EmptyString
      /\ files = []
  | Json data =>
      match PyDict.get "message" data with
      | None => True
      | Some (JStr t) => PyStr.strip t = EmptyString
      | Some v => json_truthy v = false
      end
  end ->
  chat clock generate_content_stream req w
  = (Ok (ChatReply "Please type or upload something."
                   (strftime_HM (clock (reads w)))),
     {| chat_sessions := chat_sessions w;
        current_session_id := current_session_id w;
        reads := S (reads w) |})
  /\ status_code (ChatReply "Please type or upload something."
                            (strftime_HM (clock (reads w)))) = 200.
Proof.
  intro H. split; [| reflexivity].
  assert (Hin : chat_input req = Ok (EmptyString, [])).
  { destruct req as [m files | data]; cbn [chat_input].
    - destruct H as [Hs ->]. cbn [image_parts_of].
      destruct m as [t |]; [| reflexivity].
      destruct t; [reflexivity |]. cbn [PyStr.truthy PyStr.is_empty negb].
      now rewrite Hs.
    - unfold or_empty_strip.
      destruct (PyDict.get "message" data) as [v |]; [| reflexivity].
      destruct v as [| b | z | t | l | l]; cbn in H |- *;
        try (rewrite H; reflexivity); try reflexivity.
      destruct t; [reflexivity |]. cbn [PyStr.truthy PyStr.is_empty negb].
      now rewrite H. }
  unfold chat. rewrite Hin. reflexivity.
Qed.

(** The uploaded files that are kept, each with the type settled for it. *)
Lemma image_parts_of_spec (files : list FileStorage) :
  image_parts_of files
  = map (fun f => from_bytes (content f) (upload_mime f))
        (filter file_truthy files).
Proof.
  induction files as [| f fs IH]; cbn; [reflexivity |].
  destruct (file_truthy f); cbn; now rewrite IH.
Qed.

(** C9, as the code has it.  The declared type is used whenever one is
    declared and it is not [application/octet-stream]; the extension of
    the lower-cased file name decides when the declared type is
    [application/octet-stream] or when no type is declared at all. *)
Theorem upload_mime_spec (f : FileStorage) :
  let name := PyStr.lower (match filename f with
                           | Some n => n
                           | None => EmptyString
                           end) in
  (mimetype f <> EmptyString -> mimetype f <> "application/octet-stream" ->
   upload_mime f = mimetype f)
  /\ (mimetype f = EmptyString \/ mimetype f = "application/octet-stream" ->
      upload_mime f =
      if PyStr.endswith name ".png" then "image/png"
      else if PyStr.endswith name ".jpg" || PyStr.endswith name ".jpeg"
           then "image/jpeg"
      else if PyStr.endswith name ".webp" then "image/webp"
      else "image/*").
Proof.
  intro name.
  assert (En : PyStr.lower (match filename f with
                            | Some n => if PyStr.truthy n then n else EmptyString
                            | None => EmptyString
                            end) = name).
  { unfold name. destruct (filename f) as [n |]; [| reflexivity].
    now destruct n. }
  unfold upload_mime. rewrite En. split.
  - intros N1 N2. destruct (mimetype f) as [| c m] eqn:E; [congruence |].
    cbn [PyStr.truthy PyStr.is_empty negb].
    destruct (String.eqb_spec (String c m) "application/octet-stream");
      [contradiction | reflexivity].
  - intros [E | E]; rewrite E; reflexivity.
Qed.

(** Position by position, what [messages_at] produces. *)
Lemma messages_at_nth (n : nat) (h : list Content) (i : nat) (m : Msg.t) :
  nth_error (messages_at clock n h) i = Some m ->
  exists c, nth_error h i = Some c
            /\ Msg.role m = role c
            /\ Msg.timestamp m = strftime_HM (clock (n + i))
            /\ Msg.parts m = map part_view (parts c).
Proof.
  revert n i. induction h as [| c h IH]; intros n i H.
  - destruct i; discriminate H.
  - destruct i as [| i]; cbn in H.
    + inversion H; subst m. exists c. rewrite Nat.add_0_r. repeat split.
    + destruct (IH _ _ H) as (c' & H1 & H2 & H3 & H4).
      exists c'. rewrite Nat.add_succ_r. cbn. auto.
Qed.

Lemma messages_at_length (n : nat) (h : list Content) :
  List.length (messages_at clock n h) = List.length h.
Proof.
  revert n. induction h as [| c h IH]; intro n; cbn; [reflexivity |].
  now rewrite IH.
Qed.

(** C10, as the code has it.  [GET /api/sessions/{id}] reads the clock once
    per message, in order: the [i]-th message carries the [HH:MM] of the
    [i]-th reading, whatever the stored turn is.  The messages of one
    answer share a timestamp whenever those readings render alike. *)
Theorem get_session_timestamps (w : world) (sid : string) (s : session) :
  PyDict.get sid (chat_sessions w) = Some s ->
  exists messages,
    get_session clock sid w
    = (Ok (SessionDetail sid (title s) (created_at s) messages),
       {| chat_sessions := chat_sessions w;
          current_session_id := current_session_id w;
          reads := List.length (history s) + reads w |})
    /\ List.length messages = List.length (history s)
    /\ (forall i m, nth_error messages i = Some m ->
        Msg.timestamp m = strftime_HM (clock (reads w + i))
        /\ exists c, nth_error (history s) i = Some c
                     /\ Msg.role m = role c
                     /\ Msg.parts m = map part_view (parts c))
    /\ (forall t,
          (forall i, i < List.length (history s) ->
                     strftime_HM (clock (reads w + i)) = t) ->
          forall m, In m messages -> Msg.timestamp m = t).
Proof.
  intro Hs. exists (messages_at clock (reads w) (history s)).
  assert (Hm : PyDict.mem sid (chat_sessions w) = true)
    by (apply mem_get; eauto).
  split; [| split; [| split]].
  - unfold get_session. run. rewrite Hm. cbn [negb].
    rewrite (session_at_run _ _ _ Hs), mapM_message_view_run. reflexivity.
  - apply messages_at_length.
  - intros i m H. destruct (messages_at_nth _ _ _ _ H) as (c & H1 & H2 & H3 & H4).
    split; [exact H3 | eauto].
  - intros t Ht m Hin. apply In_nth_error in Hin. destruct Hin as [i Hi].
    destruct (messages_at_nth _ _ _ _ Hi) as (c & H1 & _ & H3 & _).
    rewrite H3. apply Ht. apply nth_error_Some. congruence.
Qed.

End Chat.

(* ================================================================== *)
(** ** The order of the session list *)

(** What the sort of [get_sessions] yields: an entry that stands before
    another is never a pinned one before an unpinned one, and between two
    entries of the same group the earlier one is not the older. *)
Lemma get_sessions_order (w w' : world) cur l1 a l2 b l3 :
  get_sessions w = (Ok (Sessions (l1 ++ a :: l2 ++ b :: l3) cur), w') ->
  (Item.pinned a = true -> Item.pinned b = true)
  /\ (Item.pinned a = Item.pinned b ->
      PyStr.ltb (Item.created_at a) (Item.created_at b) = false).
Proof.
  unfold get_sessions. run. intro H. inversion H as [[Hl Hc Hw]].
  pose proof (sort_reverse_sorted (map item_of (chat_sessions w))) as Hs.
  rewrite Hl in Hs. apply StronglySorted_before in Hs.
  unfold key_ge, key_lt, sort_key in Hs. cbn [fst snd] in Hs.
  destruct (Item.pinned a), (Item.pinned b); cbn in Hs; split;
    congruence.
Qed.

(** C1 on the code.  Two sessions are created, the newer one is pinned:
    the list shows the unpinned, older session first and the pinned one
    last. *)
Theorem get_sessions_pinned_last :
  let w := serve Scenario.ticking Scenario.echo
             [POST_sessions; POST_sessions;
              PUT_session "session_2_1715940060" [("pinned", JBool true)]]
             initial in
  exists items,
    fst (get_sessions w)
    = Ok (Sessions items (Some "session_2_1715940060"))
    /\ map (fun it => (Item.id it, Item.pinned it, Item.created_at it)) items
       = [("session_1_1715940059", false, "2024-05-17T10:00:59");
          ("session_2_1715940060", true, "2024-05-17T10:01:00.000250")].
Proof.
  cbv zeta. eexists. split; vm_compute; reflexivity.
Qed.

(* ================================================================== *)
(** ** Session ids *)

(** C2 on the code.  Two sessions are created, the second one is talked
    to, the first one is deleted, and a third is created within the same
    second: the id built from the registry size and the second is the id
    of the session still stored, whose record is replaced. *)
Theorem create_session_reuses_id :
  let w := serve Scenario.frozen Scenario.echo
             [POST_sessions; POST_sessions; Scenario.say "hello";
              DELETE_session "session_1_1715940059"]
             initial in
  let sid := "session_2_1715940059" in
  option_map title (PyDict.get sid (chat_sessions w)) = Some "hello"
  /\ option_map (fun s => List.length (history s))
       (PyDict.get sid (chat_sessions w)) = Some 2
  /\ exists w',
       create_session Scenario.frozen w = (Ok (Created sid "New Chat 2"), w')
       /\ PyDict.keys (chat_sessions w') = [sid]
       /\ option_map history (PyDict.get sid (chat_sessions w')) = Some [].
Proof.
  cbv zeta. split; [vm_compute; reflexivity |].
  split; [vm_compute; reflexivity |].
  eexists. split; [vm_compute; reflexivity |].
  split; vm_compute; reflexivity.
Qed.

(* ================================================================== *)
(** ** The automatic title *)

(** A title that does not begin with "New Chat" is left alone. *)
Lemma auto_title_keeps (old user_text : string) :
  PyStr.startswith old "New Chat" = false ->
  auto_title old user_text = old.
Proof. unfold auto_title. now intros ->. Qed.

(** [chat] never changes the title of a current session whose title does
    not begin with "New Chat". *)
Lemma chat_keeps_title clock generate_content_stream
      (w : world) (req : chat_request) c s :
  well_formed w ->
  current_session_id w = Some c ->
  PyDict.get c (chat_sessions w) = Some s ->
  PyStr.startswith (title s) "New Chat" = false ->
  option_map title
    (PyDict.get c (chat_sessions (snd (chat clock generate_content_stream req w))))
  = Some (title s).
Proof.
  intros Hwf Hc Hs Ht.
  assert (N : chat_sessions w <> []).
  { intro E. rewrite E in Hs. discriminate Hs. }
  destruct (chat_input req) as [[user_text image_parts] | e] eqn:Hin.
  - destruct (negb (PyStr.truthy user_text)
              && match image_parts with [] => true | _ => false end) eqn:Hne.
    + unfold chat. rewrite Hin, Hne. run. cbn [snd chat_sessions].
      now rewrite Hs.
    + pose proof (get_or_create_default_session_present clock w c s N Hc Hs) as Hg.
      rewrite (chat_run clock generate_content_stream w w req _ _ c s
                 Hin Hne Hg Hc Hs).
      cbn [snd chat_sessions]. rewrite get_set_same. cbn.
      now rewrite auto_title_keeps.
  - unfold chat. rewrite Hin. cbn. now rewrite Hs.
Qed.

(** C3 on the code.  A first message that itself begins with "New Chat"
    gives a derived title which the second message replaces; likewise a
    title the user has set to something beginning with "New Chat" is
    replaced by the next message. *)
Theorem chat_retitles_twice :
  let sid := "session_1_1715940059" in
  let w1 := serve Scenario.frozen Scenario.echo
              [Scenario.say "New Chat plans"] initial in
  let w2 := serve Scenario.frozen Scenario.echo
              [Scenario.say "second"] w1 in
  let u1 := serve Scenario.frozen Scenario.echo
              [POST_sessions;
               PUT_session sid [("title", JStr "New Chat about cats")]]
              initial in
  let u2 := serve Scenario.frozen Scenario.echo [Scenario.say "hello"] u1 in
  option_map title (PyDict.get sid (chat_sessions w1)) = Some "New Chat plans"
  /\ option_map title (PyDict.get sid (chat_sessions w2)) = Some "second"
  /\ option_map title (PyDict.get sid (chat_sessions u1))
     = Some "New Chat about cats"
  /\ option_map title (PyDict.get sid (chat_sessions u2)) = Some "hello".
Proof.
  cbv zeta. repeat split; vm_compute; reflexivity.
Qed.

(** The derived title is never empty and never longer than the limit. *)
Lemma slug_from_text_bounds (text : string) (limit : nat) (t : string) :
  slug_from_text text limit = Some t ->
  t <> EmptyString /\ String.length t <= limit.
Proof.
  unfold slug_from_text.
  set (u := PyStr.sub_ws false (PyStr.strip text)).
  destruct (PyStr.truthy (PyStr.take limit u)) eqn:E; [| discriminate].
  intros [= <-]. split.
  - intro H. rewrite H in E. discriminate E.
  - clear E. revert limit. induction u as [| c u IH]; intros [| n]; cbn;
      try lia. specialize (IH n). lia.
Qed.

(* ================================================================== *)
(** ** The scenarios of the specification, run on the code *)

(** A first message gives the title, a second one leaves it. *)
Example chat_titles_from_first_text :
  option_map title
    (PyDict.get Scenario.first_id
       (chat_sessions
          (serve Scenario.frozen Scenario.echo
             [Scenario.say "hi there"; Scenario.say "second"] initial)))
  = Some "hi there".
Proof. vm_compute. reflexivity. Qed.

(** A title of blanks is ignored, a proper one is taken. *)
Example update_session_round_trip :
  option_map title
    (PyDict.get Scenario.first_id
       (chat_sessions
          (snd (update_session Scenario.first_id [("title", JStr "  ")]
                  Scenario.two_sessions))))
  = Some "New Chat 1"
  /\ option_map title
       (PyDict.get Scenario.first_id
          (chat_sessions
             (snd (update_session Scenario.first_id [("title", JStr "Hello")]
                     Scenario.two_sessions))))
     = Some "Hello".
Proof. split; vm_compute; reflexivity. Qed.

(** Deleting the only session leaves a fresh default session, current. *)
Example delete_only_session :
  serve Scenario.frozen Scenario.echo
    [POST_sessions; DELETE_session Scenario.first_id] initial
  = {| chat_sessions :=
         [(Scenario.first_id,
           {| history := []; created_at := "2024-05-17T10:00:59";
              title := "New Chat 1"; pinned := false |})];
       current_session_id := Some Scenario.first_id;
       reads := 4 |}.
Proof. vm_compute. reflexivity. Qed.

(* ================================================================== *)
(** ** Where the statements of the specification and the code part *)

(** C9 fails as stated: a file part that declares no content type has a
    declared type other than [application/octet-stream], and yet its type
    is guessed from the extension. *)
Lemma upload_mime_undeclared_guessed :
  mimetype Scenario.bare_png <> "application/octet-stream"
  /\ upload_mime Scenario.bare_png = "image/png"
  /\ upload_mime Scenario.bare_png <> mimetype Scenario.bare_png.
Proof.
  split; [intro H; vm_compute in H; discriminate H |].
  split; [vm_compute; reflexivity | intro H; vm_compute in H; discriminate H].
Qed.

(** C10 fails as stated: when the minute turns while the answer is built
    its two messages carry different timestamps; and two fetches of the
    unchanged session at different readings of the same minute give the
    same answer. *)
Lemma timestamps_follow_the_minute :
  Scenario.timestamps
    (fst (get_session Scenario.turning Scenario.first_id
            (Scenario.after_hi Scenario.turning)))
  = ["10:00"; "10:01"]
  /\ Scenario.same_minute (reads (Scenario.after_hi Scenario.same_minute))
     <> Scenario.same_minute
          (reads (snd (get_session Scenario.same_minute Scenario.first_id
                         (Scenario.after_hi Scenario.same_minute))))
  /\ Scenario.timestamps
       (fst (get_session Scenario.same_minute Scenario.first_id
               (Scenario.after_hi Scenario.same_minute)))
     = ["10:00"; "10:00"]
  /\ fst (get_session Scenario.same_minute Scenario.first_id
            (Scenario.after_hi Scenario.same_minute))
     = fst (get_session Scenario.same_minute Scenario.first_id
              (snd (get_session Scenario.same_minute Scenario.first_id
                      (Scenario.after_hi Scenario.same_minute)))).
Proof.
  split; [vm_compute; reflexivity |].
  split; [intro H; vm_compute in H; discriminate H |].
  split; vm_compute; reflexivity.
Qed.

(* ================================================================== *)
(** ** The statements at work on the scenarios *)

Lemma get_or_create_default_session_idempotent_witness :
  reachable Scenario.frozen Scenario.echo initial
  /\ exists sid s w',
       get_or_create_default_session Scenario.frozen initial = (Ok s, w')
       /\ chat_sessions w' = [(sid, s)]
       /\ current_session_id w' = Some sid.
Proof.
  assert (Hr : reachable Scenario.frozen Scenario.echo initial)
    by apply reach_initial.
  split; [exact Hr |].
  exact (proj1 (get_or_create_default_session_idempotent
                  Scenario.frozen Scenario.echo initial Hr) eq_refl).
Defined.

Lemma delete_session_current_stored_witness :
  reachable Scenario.frozen Scenario.echo Scenario.two_sessions
  /\ PyDict.mem "session_2_1715940059" (chat_sessions Scenario.two_sessions)
     = true
  /\ exists cur w',
       delete_session Scenario.frozen "session_2_1715940059"
         Scenario.two_sessions = (Ok (Deleted (Some cur)), w')
       /\ current_session_id w' = Some cur
       /\ PyDict.mem cur (chat_sessions w') = true.
Proof.
  assert (Hr : reachable Scenario.frozen Scenario.echo Scenario.two_sessions)
    by (apply reachable_serve, reach_initial).
  assert (Hm : PyDict.mem "session_2_1715940059"
                 (chat_sessions Scenario.two_sessions) = true)
    by (vm_compute; reflexivity).
  split; [exact Hr |]. split; [exact Hm |].
  destruct (delete_session_current_stored Scenario.frozen Scenario.echo
              Scenario.two_sessions "session_2_1715940059" Hr Hm)
    as (cur & w' & H1 & _ & H2 & H3 & _).
  exists cur, w'. auto.
Defined.

Lemma get_sessions_message_count_witness :
  reachable Scenario.frozen Scenario.echo (Scenario.after_hi Scenario.frozen)
  /\ PyDict.get Scenario.first_id
       (chat_sessions (Scenario.after_hi Scenario.frozen))
     = Some Scenario.hi_session
  /\ exists items,
       get_sessions (Scenario.after_hi Scenario.frozen)
       = (Ok (Sessions items (Some Scenario.first_id)),
          Scenario.after_hi Scenario.frozen)
       /\ forall it, In it items -> Item.id it = Scenario.first_id ->
                     Item.message_count it = 1.
Proof.
  assert (Hr : reachable Scenario.frozen Scenario.echo
                 (Scenario.after_hi Scenario.frozen))
    by (apply reachable_serve, reach_initial).
  assert (Hs : PyDict.get Scenario.first_id
                 (chat_sessions (Scenario.after_hi Scenario.frozen))
               = Some Scenario.hi_session)
    by (vm_compute; reflexivity).
  split; [exact Hr |]. split; [exact Hs |].
  destruct (get_sessions_message_count Scenario.frozen Scenario.echo
              _ _ _ Hr Hs) as (items & H1 & _ & _ & H2).
  exists items. split; [exact H1 | exact H2].
Defined.

Lemma update_session_spec_witness :
  PyDict.get Scenario.first_id (chat_sessions Scenario.two_sessions)
  = Some {| history := []; created_at := "2024-05-17T10:00:59";
            title := "New Chat 1"; pinned := false |}
  /\ exists w',
       update_session Scenario.first_id Scenario.rename_and_pin
         Scenario.two_sessions = (Ok OkTrue, w')
       /\ PyDict.get Scenario.first_id (chat_sessions w')
          = Some {| history := []; created_at := "2024-05-17T10:00:59";
                    title := "Hello"; pinned := true |}.
Proof.
  assert (Hs : PyDict.get Scenario.first_id (chat_sessions Scenario.two_sessions)
               = Some {| history := []; created_at := "2024-05-17T10:00:59";
                         title := "New Chat 1"; pinned := false |})
    by (vm_compute; reflexivity).
  split; [exact Hs |].
  destruct (proj2 (proj2 (update_session_spec Scenario.two_sessions
                            Scenario.first_id Scenario.rename_and_pin))
              _ Hs (fun _ => ex_intro _ "  Hello " eq_refl))
    as (w' & H1 & H2 & _).
  exists w'. split; [exact H1 | exact H2].
Defined.

Lemma chat_empty_input_witness :
  PyStr.strip "   " = EmptyString
  /\ chat Scenario.frozen Scenario.echo Scenario.blank_message
       Scenario.two_sessions
     = (Ok (ChatReply "Please type or upload something." "10:00"),
        {| chat_sessions := chat_sessions Scenario.two_sessions;
           current_session_id := current_session_id Scenario.two_sessions;
           reads := S (reads Scenario.two_sessions) |}).
Proof.
  assert (H : PyStr.strip "   " = EmptyString) by reflexivity.
  split; [exact H |].
  exact (proj1 (chat_empty_input Scenario.frozen Scenario.echo
                  Scenario.two_sessions Scenario.blank_message H)).
Defined.

Lemma upload_mime_spec_witness :
  upload_mime Scenario.binary_jpeg = "image/jpeg"
  /\ upload_mime Scenario.bare_png = "image/png"
  /\ upload_mime Scenario.gif_named_png = "image/gif".
Proof.
  split; [| split].
  - exact (proj2 (upload_mime_spec Scenario.binary_jpeg) (or_intror eq_refl)).
  - exact (proj2 (upload_mime_spec Scenario.bare_png) (or_introl eq_refl)).
  - apply (proj1 (upload_mime_spec Scenario.gif_named_png));
      intro H; vm_compute in H; discriminate H.
Defined.

Lemma get_session_timestamps_witness :
  PyDict.get Scenario.first_id
    (chat_sessions (Scenario.after_hi Scenario.frozen))
  = Some Scenario.hi_session
  /\ exists messages,
       fst (get_session Scenario.frozen Scenario.first_id
              (Scenario.after_hi Scenario.frozen))
       = Ok (SessionDetail Scenario.first_id "hi" "2024-05-17T10:00:59"
               messages)
       /\ forall m, In m messages -> Msg.timestamp m = "10:00".
Proof.
  assert (Hs : PyDict.get Scenario.first_id
                 (chat_sessions (Scenario.after_hi Scenario.frozen))
               = Some Scenario.hi_session)
    by (vm_compute; reflexivity).
  split; [exact Hs |].
  destruct (get_session_timestamps Scenario.frozen _ _ _ Hs)
    as (messages & H1 & _ & _ & H2).
  exists messages. split.
  - rewrite H1. reflexivity.
  - apply H2. intros i _. reflexivity.
Defined.

(* ================================================================== *)
(** ** Further facts about the [dict] and the helpers *)

Lemma set_get_same {V} (k : string) (v : V) (d : PyDict.t V) :
  PyDict.get k d = Some v -> PyDict.set k v d = d.
Proof.
  induction d as [| [k0 v0] d IH]; simpl; [discriminate |].
  destruct (String.eqb_spec k k0) as [-> | N].
  - now intros [= ->].
  - intro H. now rewrite IH.
Qed.

Lemma mem_del_same {V} (k : string) (d : PyDict.t V) :
  NoDup (PyDict.keys d) -> PyDict.mem k (PyDict.del k d) = false.
Proof.
  induction d as [| [k0 v0] d IH]; simpl; [reflexivity |].
  intro H. inversion H as [| ? ? Hn Hd]; subst.
  destruct (String.eqb_spec k k0) as [-> | N].
  - destruct (PyDict.mem k0 d) eqn:E; [| reflexivity].
    apply mem_In_keys in E. contradiction.
  - unfold PyDict.mem in *. simpl.
    destruct (String.eqb_spec k k0); [contradiction | now apply IH].
Qed.

Lemma len_del_present {V} (k : string) (d : PyDict.t V) :
  PyDict.mem k d = true -> S (PyDict.len (PyDict.del k d)) = PyDict.len d.
Proof.
  unfold PyDict.mem, PyDict.len.
  induction d as [| [k0 v0] d IH]; simpl; [discriminate |].
  destruct (String.eqb_spec k k0) as [-> | N]; simpl; [reflexivity |].
  intro H. now rewrite IH.
Qed.

Lemma msg_count_app (h1 h2 : list Content) :
  msg_count (h1 ++ h2) = msg_count h1 + msg_count h2.
Proof.
  unfold msg_count. rewrite filter_app, map_app, list_sum_app. reflexivity.
Qed.

Lemma mutate_current_same (w : world) sid f :
  current_session_id (snd (mutate sid f w)) = current_session_id w.
Proof.
  unfold mutate. now destruct (PyDict.get sid (chat_sessions w)).
Qed.

Section Further.

Variable clock : nat -> datetime.
Variable generate_content_stream : nat -> string -> list Content -> stream.

(** [chat] on an input that is not empty, in a state that satisfies the
    registry invariant. *)
Lemma chat_exchange (w : world) req user_text image_parts :
  well_formed w ->
  chat_input req = Ok (user_text, image_parts) ->
  PyStr.truthy user_text = true \/ image_parts <> [] ->
  exists c s w1,
    get_or_create_default_session clock w = (Ok s, w1)
    /\ current_session_id w1 = Some c
    /\ PyDict.get c (chat_sessions w1) = Some s
    /\ well_formed w1
    /\ (chat_sessions w <> [] -> w1 = w)
    /\ let h1 := history s ++ [user_turn user_text image_parts] in
       let reply :=
         reply_of (generate_content_stream (reads w1)
                     (model_for image_parts) h1) in
       chat clock generate_content_stream req w =
       (Ok (ChatReply reply (strftime_HM (clock (S (reads w1))))),
        {| chat_sessions :=
             PyDict.set c {| history := h1 ++ [model_turn reply];
                             created_at := created_at s;
                             title := auto_title (title s) user_text;
                             pinned := pinned s |} (chat_sessions w1);
           current_session_id := Some c;
           reads := S (S (reads w1)) |}).
Proof.
  intros Hwf Hin Hne.
  destruct (get_or_create_default_session_ok clock w Hwf)
    as (c & s & w1 & Hg & Hc & Hs & Hw1 & Hsame).
  exists c, s, w1. repeat (split; [assumption |]).
  apply chat_run; try assumption.
  destruct Hne as [Ht | Hi].
  - now rewrite Ht.
  - destruct image_parts; [contradiction | apply andb_false_r].
Qed.

(** X1. [POST /api/switch-session/{id}] answers 404 on an id that is not
    stored and changes nothing; on a stored id it only moves the current
    pointer there, and the session every entry point then works on is the
    one stored under that id. *)
Theorem switch_session_spec (w : world) (sid : string) :
  (PyDict.mem sid (chat_sessions w) = false ->
   switch_session sid w = (Ok NotFound, w))
  /\ (forall s, PyDict.get sid (chat_sessions w) = Some s ->
      exists w',
        switch_session sid w = (Ok (Switched sid), w')
        /\ chat_sessions w' = chat_sessions w
        /\ current_session_id w' = Some sid
        /\ reads w' = reads w
        /\ get_or_create_default_session clock w' = (Ok s, w')).
Proof.
  split.
  - intro Hm. unfold switch_session. run. now rewrite Hm.
  - intros s Hs.
    assert (Hm : PyDict.mem sid (chat_sessions w) = true)
      by (apply mem_get; eauto).
    unfold switch_session. run. rewrite Hm. cbn [negb].
    eexists. split; [reflexivity |]. repeat split.
    apply get_or_create_default_session_present with (c := sid); cbn; auto.
    intro E. rewrite E in Hs. discriminate Hs.
Qed.

(** [reset] in a state that satisfies the registry invariant. *)
Lemma reset_run (w : world) :
  well_formed w ->
  exists c s w1,
    get_or_create_default_session clock w = (Ok s, w1)
    /\ current_session_id w1 = Some c
    /\ PyDict.get c (chat_sessions w1) = Some s
    /\ (chat_sessions w <> [] -> w1 = w)
    /\ reset clock w =
       (Ok OkTrue,
        {| chat_sessions := PyDict.set c (set_history [] s) (chat_sessions w1);
           current_session_id := Some c;
           reads := reads w1 |}).
Proof.
  intro Hwf.
  destruct (get_or_create_default_session_ok clock w Hwf)
    as (c & s & w1 & Hg & Hc & Hs & _ & Hsame).
  exists c, s, w1. repeat (split; [assumption |]).
  unfold reset. unfold bind at 1. rewrite Hg.
  unfold bind at 1. rewrite (mutate_current_run _ _ _ _ Hc Hs). reflexivity.
Qed.

(** X2. [POST /reset] empties the history of the current session and of
    no other: its title, creation time and pin stay, every other session
    keeps its record, and the registry keeps its ids and its current
    pointer.  On an empty registry a default session is created first. *)
Theorem reset_clears_current_only (w : world) :
  reachable clock generate_content_stream w ->
  exists c w',
    reset clock w = (Ok OkTrue, w')
    /\ current_session_id w' = Some c
    /\ option_map history (PyDict.get c (chat_sessions w')) = Some []
    /\ (forall s, PyDict.get c (chat_sessions w) = Some s ->
        PyDict.get c (chat_sessions w')
        = Some {| history := []; created_at := created_at s;
                  title := title s; pinned := pinned s |})
    /\ (forall k, k <> c ->
        PyDict.get k (chat_sessions w') = PyDict.get k (chat_sessions w))
    /\ (chat_sessions w <> [] ->
        current_session_id w = Some c
        /\ PyDict.keys (chat_sessions w') = PyDict.keys (chat_sessions w)
        /\ reads w' = reads w).
Proof.
  intro Hr. pose proof (reachable_well_formed _ _ _ Hr) as Hwf.
  destruct (reset_run w Hwf) as (c & s & w1 & Hg & Hc & Hs & Hsame & Hreset).
  exists c. eexists. split; [exact Hreset |].
  cbn [chat_sessions current_session_id reads].
  split; [reflexivity |]. split; [now rewrite get_set_same |].
  assert (D : chat_sessions w = [] \/ chat_sessions w <> []).
  { destruct (chat_sessions w); [now left | right; discriminate]. }
  destruct D as [E | N].
  - rewrite get_or_create_default_session_empty in Hg by exact E.
    injection Hg as _ Hw1. subst w1.
    cbn [chat_sessions current_session_id] in *.
    injection Hc as Hc. rewrite E.
    split; [intros s0 H0; discriminate H0 |].
    split; [| intro N; now contradiction N].
    intros k N. rewrite get_set_other by exact N.
    cbn [PyDict.get]. rewrite Hc.
    destruct (String.eqb_spec k c); [contradiction | reflexivity].
  - rewrite (Hsame N) in *.
    split.
    { intros s0 H0. rewrite get_set_same. rewrite Hs in H0.
      injection H0 as <-. reflexivity. }
    split; [intros k Nk; now apply get_set_other |].
    intros _. split; [exact Hc |]. split; [| reflexivity].
    apply keys_set_present. apply mem_get. eauto.
Qed.

(** X3. [POST /reset] is idempotent: a second reset right after a first
    one answers the same and leaves the state as the first one left it. *)
Theorem reset_idempotent (w : world) :
  reachable clock generate_content_stream w ->
  reset clock (snd (reset clock w)) = (Ok OkTrue, snd (reset clock w)).
Proof.
  intro Hr. pose proof (reachable_well_formed _ _ _ Hr) as Hwf.
  destruct (reset_run w Hwf) as (c & s & w1 & _ & _ & _ & _ & Hreset).
  rewrite Hreset. cbn [snd].
  set (w' := {| chat_sessions := PyDict.set c (set_history [] s) (chat_sessions w1);
                current_session_id := Some c; reads := reads w1 |}).
  assert (Hc : current_session_id w' = Some c) by reflexivity.
  assert (Hs : PyDict.get c (chat_sessions w') = Some (set_history [] s))
    by apply get_set_same.
  assert (N : chat_sessions w' <> []).
  { intro E. rewrite E in Hs. discriminate Hs. }
  unfold reset. unfold bind at 1.
  rewrite (get_or_create_default_session_present clock w' c _ N Hc Hs).
  unfold bind at 1. rewrite (mutate_current_run _ _ _ _ Hc Hs).
  replace (set_history [] (set_history [] s)) with (set_history [] s)
    by reflexivity.
  rewrite (set_get_same _ _ _ Hs). reflexivity.
Qed.

(** [(v or '').strip()] raises nothing but [AttributeError], and only on
    a truthy value that is not a string. *)
Lemma or_empty_strip_raise (v : option json) (e : exn) :
  or_empty_strip v = Raise e -> e = AttributeError /\ not_a_string v.
Proof.
  unfold or_empty_strip. destruct v as [j |]; [| discriminate].
  destruct (json_truthy j) eqn:E; [| discriminate].
  destruct j; try discriminate; intros [= <-]; split; try reflexivity;
    eexists; (split; [reflexivity |]); (split; [exact E | discriminate]).
Qed.

(** Every handler either answers, keeping a current session when there was
    one, or raises [AttributeError] on a field that is not a string,
    before it has written anything. *)
Lemma handle_effect (r : request) (w : world) :
  well_formed w ->
  (exists resp w',
     handle clock generate_content_stream r w = (Ok resp, w')
     /\ (current_session_id w <> None -> current_session_id w' <> None))
  \/ (handle clock generate_content_stream r w = (Raise AttributeError, w)
      /\ ((exists sid data, r = PUT_session sid data
                            /\ not_a_string (PyDict.get "title" data))
          \/ (exists data, r = POST_chat (Json data)
                           /\ not_a_string (PyDict.get "message" data)))).
Proof.
  intro Hwf. destruct r as [| | sid | | sid data | sid | sid | | req]; cbn [handle].
  - (* index *)
    destruct (get_or_create_default_session_ok clock w Hwf)
      as (c & s & w1 & Hg & Hc & _).
    left. exists (Page "index.html"), w1. split.
    + unfold index. run. now rewrite Hg.
    + intros _. now rewrite Hc.
  - (* get_sessions *)
    left. unfold get_sessions. run.
    eexists _, w. split; [reflexivity | auto].
  - (* get_session *)
    left. unfold get_session. run.
    destruct (PyDict.mem sid (chat_sessions w)) eqn:Hm; cbn [negb].
    + destruct (proj1 (mem_get _ _) Hm) as [s Hs].
      rewrite (session_at_run _ _ _ Hs), mapM_message_view_run.
      eexists _, _. split; [reflexivity | auto].
    + eexists _, w. split; [reflexivity | auto].
  - (* create_session *)
    left. unfold create_session. unfold bind at 1.
    rewrite create_session_object_run. run.
    unfold session_at. cbn [chat_sessions]. rewrite get_set_same.
    eexists _, _. split; [reflexivity |]. cbn. discriminate.
  - (* update_session *)
    unfold update_session. run.
    destruct (PyDict.mem sid (chat_sessions w)) eqn:Hm; cbn [negb];
      [| left; eexists _, w; split; [reflexivity | auto]].
    destruct (proj1 (mem_get _ _) Hm) as [s Hs].
    destruct (PyDict.get "title" data) as [v |] eqn:Hv.
    + destruct (or_empty_strip (Some v)) as [t | e] eqn:Ho.
      * left. rewrite (session_at_run _ _ _ Hs), (mutate_run _ _ _ _ Hs).
        destruct (PyDict.get "pinned" data) as [p |].
        -- match goal with
           | |- context [mutate sid ?f ?w0] =>
               rewrite (mutate_run w0 sid f _ (get_set_same _ _ _))
           end.
           eexists _, _. split; [reflexivity | auto].
        -- eexists _, _. split; [reflexivity | auto].
      * right. destruct (or_empty_strip_raise _ _ Ho) as [-> Hbad].
        split; [reflexivity |]. left. exists sid, data. now rewrite Hv.
    + left. destruct (PyDict.get "pinned" data) as [p |].
      * rewrite (mutate_run _ _ _ _ Hs).
        eexists _, _. split; [reflexivity | auto].
      * eexists _, w. split; [reflexivity | auto].
  - (* delete_session *)
    left. destruct (PyDict.mem sid (chat_sessions w)) eqn:Hm.
    + destruct (delete_session_run clock w sid Hwf Hm)
        as (cur & w' & Hd & Hc & _).
      exists (Deleted (Some cur)), w'. split; [exact Hd |].
      intros _. now rewrite Hc.
    + unfold delete_session. run. rewrite Hm.
      eexists _, w. split; [reflexivity | auto].
  - (* switch_session *)
    left. unfold switch_session. run.
    destruct (PyDict.mem sid (chat_sessions w)); cbn [negb].
    + eexists _, _. split; [reflexivity |]. cbn. discriminate.
    + eexists _, w. split; [reflexivity | auto].
  - (* reset *)
    destruct (reset_run w Hwf) as (c & s & w1 & _ & _ & _ & _ & Hreset).
    left. eexists _, _. split; [exact Hreset |]. cbn. discriminate.
  - (* chat *)
    destruct (chat_input req) as [[user_text image_parts] | e] eqn:Hin.
    + left.
      destruct (negb (PyStr.truthy user_text)
                && match image_parts with [] => true | _ => false end) eqn:Hne.
      * unfold chat. rewrite Hin, Hne. run.
        eexists _, _. split; [reflexivity | auto].
      * destruct (get_or_create_default_session_ok clock w Hwf)
          as (c & s & w1 & Hg & Hc & Hs & _).
        rewrite (chat_run clock generate_content_stream w w1 req _ _ c s
                   Hin Hne Hg Hc Hs).
        eexists _, _. split; [reflexivity |]. cbn. discriminate.
    + right. unfold chat. rewrite Hin.
      destruct req as [m files | data]; cbn [chat_input] in Hin;
        [discriminate Hin |].
      destruct (or_empty_strip (PyDict.get "message" data)) as [t | e'] eqn:Ho;
        [discriminate Hin |].
      injection Hin as <-.
      destruct (or_empty_strip_raise _ _ Ho) as [-> Hbad].
      split; [reflexivity |]. right. now exists data.
Qed.

(** X4. [POST /api/sessions] stores a session with an empty history, not
    pinned, titled "New Chat n" for n one more than the registry size,
    under the id it answers with, and makes it current; every session
    stored under another id keeps its record, and an id that was not yet
    stored goes last in the registry. *)
Theorem create_session_spec (w : world) :
  let sid := next_id clock w in
  let ttl := ("New Chat " ++ PyStr.of_nat (PyDict.len (chat_sessions w) + 1))%string in
  exists w',
    create_session clock w = (Ok (Created sid ttl), w')
    /\ current_session_id w' = Some sid
    /\ PyDict.get sid (chat_sessions w')
       = Some {| history := [];
                 created_at := isoformat (clock (S (reads w)));
                 title := ttl; pinned := false |}
    /\ (forall k, k <> sid ->
        PyDict.get k (chat_sessions w') = PyDict.get k (chat_sessions w))
    /\ (PyDict.mem sid (chat_sessions w) = false ->
        PyDict.keys (chat_sessions w') = PyDict.keys (chat_sessions w) ++ [sid]).
Proof.
  intros sid ttl. unfold create_session. unfold bind at 1.
  rewrite create_session_object_run. run.
  unfold session_at. cbn [chat_sessions]. rewrite get_set_same.
  eexists. split; [reflexivity |]. cbn [chat_sessions current_session_id].
  split; [reflexivity |]. split; [apply get_set_same |].
  split; [intros k N; now apply get_set_other |].
  intro Hm. rewrite set_absent by exact Hm.
  unfold PyDict.keys. now rewrite map_app.
Qed.

(** X5. In every state the program can reach, no id is stored twice, the
    current id (when there is one) names a stored session, and there is a
    current id exactly when the registry is not empty. *)
Theorem registry_invariant (w : world) :
  reachable clock generate_content_stream w ->
  NoDup (PyDict.keys (chat_sessions w))
  /\ (forall c, current_session_id w = Some c ->
      exists s, PyDict.get c (chat_sessions w) = Some s)
  /\ (current_session_id w = None <-> chat_sessions w = []).
Proof.
  intro Hr. destruct (reachable_well_formed _ _ _ Hr) as [Hcur Hnd].
  unfold current_exists in Hcur. split; [exact Hnd |].
  destruct (current_session_id w) as [c |].
  - split.
    + intros c' [= <-]. now apply mem_get.
    + split; [discriminate |]. intro E. rewrite E in Hcur. discriminate Hcur.
  - split; [discriminate | tauto].
Qed.

(** X6. Once a session is stored the registry never becomes empty again:
    no request, whatever it is, leaves a registry that was not empty
    without a session. *)
Theorem registry_never_empties (w : world) (r : request) :
  reachable clock generate_content_stream w ->
  chat_sessions w <> [] ->
  chat_sessions (snd (handle clock generate_content_stream r w)) <> [].
Proof.
  intros Hr N. pose proof (reachable_well_formed _ _ _ Hr) as Hwf.
  destruct (well_formed_current w Hwf N) as (c & s & Hc & _).
  destruct (handle_effect r w Hwf) as [(resp & w' & H & Hsome) | [H _]];
    [| now rewrite H].
  pose proof (handle_well_formed clock generate_content_stream r w Hwf) as Hw'.
  rewrite H in *. cbn [snd] in *. intro E.
  destruct Hw' as [Hcur _]. unfold current_exists in Hcur.
  destruct (current_session_id w') as [c' |] eqn:Ec.
  - rewrite E in Hcur. discriminate Hcur.
  - apply Hsome; [rewrite Hc; discriminate | reflexivity].
Qed.


(** X8. A [/chat] request that carries text or an image is answered 200;
    it appends to the current session (created first if the registry is
    empty) exactly two turns, the user's and then the model's, and touches
    no other session.  The model is sent the whole history including the
    new user turn, and it is the vision model exactly when an image is
    attached. *)
Theorem chat_appends_exchange (w : world) req user_text image_parts :
  reachable clock generate_content_stream w ->
  chat_input req = Ok (user_text, image_parts) ->
  PyStr.truthy user_text = true \/ image_parts <> [] ->
  exists c s w1 reply w',
    get_or_create_default_session clock w = (Ok s, w1)
    /\ (chat_sessions w <> [] -> w1 = w)
    /\ current_session_id w1 = Some c
    /\ chat clock generate_content_stream req w
       = (Ok (ChatReply reply (strftime_HM (clock (S (reads w1))))), w')
    /\ status_code (ChatReply reply (strftime_HM (clock (S (reads w1))))) = 200
    /\ reply
       = reply_of
           (generate_content_stream (reads w1)
              (match image_parts with [] => TEXT_MODEL | _ => VISION_MODEL end)
              (history s ++ [user_turn user_text image_parts]))
    /\ current_session_id w' = Some c
    /\ option_map history (PyDict.get c (chat_sessions w'))
       = Some (history s
               ++ [user_turn user_text image_parts; model_turn reply])
    /\ (forall k, k <> c ->
        PyDict.get k (chat_sessions w') = PyDict.get k (chat_sessions w1))
    /\ PyDict.keys (chat_sessions w') = PyDict.keys (chat_sessions w1).
Proof.
  intros Hr Hin Hne. pose proof (reachable_well_formed _ _ _ Hr) as Hwf.
  destruct (chat_exchange w req _ _ Hwf Hin Hne)
    as (c & s & w1 & Hg & Hc & Hs & _ & Hsame & Hchat).
  cbv zeta in Hchat. exists c, s, w1. eexists. eexists.
  split; [exact Hg |]. split; [exact Hsame |]. split; [exact Hc |].
  split; [exact Hchat |]. split; [reflexivity |]. split; [reflexivity |].
  cbn [chat_sessions current_session_id]. split; [reflexivity |].
  split; [rewrite get_set_same; cbn; now rewrite <- app_assoc |].
  split; [intros k N; now apply get_set_other |].
  apply keys_set_present. apply mem_get. eauto.
Qed.


(** X11. A session whose title does not begin with "New Chat" is never
    retitled by [/chat], whatever the message. *)
Theorem chat_leaves_other_titles (w : world) (req : chat_request) c s :
  reachable clock generate_content_stream w ->
  current_session_id w = Some c ->
  PyDict.get c (chat_sessions w) = Some s ->
  PyStr.startswith (title s) "New Chat" = false ->
  option_map title
    (PyDict.get c
       (chat_sessions (snd (chat clock generate_content_stream req w))))
  = Some (title s).
Proof.
  intros Hr Hc Hs Ht.
  apply chat_keeps_title; auto.
  now apply (reachable_well_formed clock generate_content_stream).
Qed.

(** X12. Each [/chat] request that is not empty adds exactly one to the
    [message_count] of the current session: the user's turn counts, the
    model's does not. *)
Theorem chat_counts_one_message (w : world) req user_text image_parts :
  reachable clock generate_content_stream w ->
  chat_input req = Ok (user_text, image_parts) ->
  PyStr.truthy user_text = true \/ image_parts <> [] ->
  exists c s w1,
    get_or_create_default_session clock w = (Ok s, w1)
    /\ current_session_id w1 = Some c
    /\ option_map (fun x => msg_count (history x))
         (PyDict.get c
            (chat_sessions (snd (chat clock generate_content_stream req w))))
       = Some (S (msg_count (history s))).
Proof.
  intros Hr Hin Hne. pose proof (reachable_well_formed _ _ _ Hr) as Hwf.
  destruct (chat_exchange w req _ _ Hwf Hin Hne)
    as (c & s & w1 & Hg & Hc & _ & _ & _ & Hchat).
  cbv zeta in Hchat. exists c, s, w1.
  split; [exact Hg |]. split; [exact Hc |].
  rewrite Hchat. cbn [snd chat_sessions]. rewrite get_set_same.
  cbn [option_map history]. rewrite !msg_count_app.
  change (msg_count [user_turn user_text image_parts]) with 1.
  match goal with |- context [msg_count [model_turn ?r]] =>
    change (msg_count [model_turn r]) with 0 end.
  f_equal. lia.
Qed.

(** X13. [GET /api/sessions] changes nothing and lists the registry: one
    entry per stored id, each with the title, creation time and pin of the
    session stored under it, and the current id it reports is the id of a
    listed entry. *)
Theorem get_sessions_lists_registry (w : world) :
  reachable clock generate_content_stream w ->
  exists items,
    get_sessions w = (Ok (Sessions items (current_session_id w)), w)
    /\ Permutation (map Item.id items) (PyDict.keys (chat_sessions w))
    /\ NoDup (map Item.id items)
    /\ (forall it, In it items ->
        exists s, PyDict.get (Item.id it) (chat_sessions w) = Some s
                  /\ Item.title it = title s
                  /\ Item.created_at it = created_at s
                  /\ Item.pinned it = pinned s)
    /\ (forall c, current_session_id w = Some c -> In c (map Item.id items)).
Proof.
  intro Hr. destruct (reachable_well_formed _ _ _ Hr) as [Hcur Hnd].
  exists (sort_reverse (map item_of (chat_sessions w))).
  assert (Hp : Permutation
                 (map Item.id (sort_reverse (map item_of (chat_sessions w))))
                 (PyDict.keys (chat_sessions w))).
  { eapply Permutation_trans;
      [apply Permutation_map, sort_reverse_perm |].
    rewrite map_map. apply Permutation_refl. }
  split; [reflexivity |]. split; [exact Hp |].
  split; [| split].
  - eapply Permutation_NoDup; [apply Permutation_sym, Hp | exact Hnd].
  - intros it Hin.
    apply (Permutation_in _ (sort_reverse_perm _)) in Hin.
    apply in_map_iff in Hin. destruct Hin as ([k s] & <- & Hin).
    exists s. cbn. split; [now apply NoDup_keys_get | auto].
  - intros c Hc. unfold current_exists in Hcur. rewrite Hc in Hcur.
    apply (Permutation_in _ (Permutation_sym Hp)). now apply mem_In_keys.
Qed.

(** X14. [GET /api/sessions/{id}] answers 404 exactly when the id is not
    stored, and in every case leaves the registry and the current pointer
    as they were. *)
Theorem get_session_read_only (w : world) (sid : string) :
  (fst (get_session clock sid w) = Ok NotFound
   <-> PyDict.mem sid (chat_sessions w) = false)
  /\ (PyDict.mem sid (chat_sessions w) = false ->
      get_session clock sid w = (Ok NotFound, w)
      /\ status_code NotFound = 404)
  /\ chat_sessions (snd (get_session clock sid w)) = chat_sessions w
  /\ current_session_id (snd (get_session clock sid w)) = current_session_id w.
Proof.
  unfold get_session. run.
  destruct (PyDict.mem sid (chat_sessions w)) eqn:Hm; cbn [negb].
  - destruct (proj1 (mem_get _ _) Hm) as [s Hs].
    rewrite (session_at_run _ _ _ Hs), mapM_message_view_run. cbn.
    repeat split; try discriminate.
  - repeat split.
Qed.

(** X15. [DELETE /api/sessions/{id}] answers 404 on an id that is not
    stored and changes nothing.  On a stored id, while other sessions
    remain, it removes that session and nothing else: the id is no longer
    stored, every other session keeps its record and its place, and the
    registry is one session smaller. *)
Theorem delete_session_removes_only (w : world) (sid : string) :
  reachable clock generate_content_stream w ->
  (PyDict.mem sid (chat_sessions w) = false ->
   delete_session clock sid w = (Ok NotFound, w))
  /\ (PyDict.mem sid (chat_sessions w) = true ->
      PyDict.del sid (chat_sessions w) <> [] ->
      let w' := snd (delete_session clock sid w) in
      chat_sessions w' = PyDict.del sid (chat_sessions w)
      /\ PyDict.mem sid (chat_sessions w') = false
      /\ (forall k, k <> sid ->
          PyDict.get k (chat_sessions w') = PyDict.get k (chat_sessions w))
      /\ S (PyDict.len (chat_sessions w')) = PyDict.len (chat_sessions w)
      /\ reads w' = reads w).
Proof.
  intro Hr. pose proof (reachable_well_formed _ _ _ Hr) as Hwf. split.
  - intro Hm. unfold delete_session. run. now rewrite Hm.
  - intros Hm N w'.
    destruct (delete_session_run clock w sid Hwf Hm)
      as (cur & w0 & Hd & _ & _ & Hother & Hsame & _).
    assert (E : chat_sessions w' = PyDict.del sid (chat_sessions w)
                /\ reads w' = reads w).
    { unfold w'. rewrite Hd. cbn [snd].
      assert (D : current_session_id w = Some sid
                  \/ current_session_id w <> Some sid).
      { destruct (current_session_id w) as [c0 |]; [| right; discriminate].
        destruct (string_dec c0 sid) as [-> | N0];
          [now left | right; congruence]. }
      destruct D as [Ec | Nc].
      - destruct (Hsame Ec N) as (_ & H1 & H2). auto.
      - destruct (Hother Nc) as (_ & H1 & H2). auto. }
    destruct E as [E1 E2]. rewrite E1.
    split; [reflexivity |]. split; [apply mem_del_same, Hwf |].
    split; [intros k Nk; now apply get_del_other |].
    split; [now apply len_del_present | exact E2].
Qed.

End Further.

(* ================================================================== *)
(** ** The reply, the title and the uploads *)

Lemma string_app_nil_r (s : string) : (s ++ EmptyString)%string = s.
Proof. induction s as [| c s IH]; cbn; [reflexivity | now rewrite IH]. Qed.

Lemma string_app_assoc (a b c : string) :
  ((a ++ b) ++ c)%string = (a ++ (b ++ c))%string.
Proof. induction a as [| x a IH]; cbn; [reflexivity | now rewrite IH]. Qed.

Lemma concat_empty_cons (x : string) (xs : list string) :
  String.concat EmptyString (x :: xs)
  = (x ++ String.concat EmptyString xs)%string.
Proof. destruct xs; cbn; [now rewrite string_app_nil_r | reflexivity]. Qed.

(** X10. The reply built from a stream that ends normally is the
    concatenation, in order, of the texts of its chunks, chunks without
    text adding nothing; a stream that raises gives only the error
    message, whatever had arrived before. *)
Theorem reply_of_concat (r : stream) :
  (failure r = None ->
   reply_of r = String.concat EmptyString (chunk_texts (chunks r)))
  /\ (forall e, failure r = Some e ->
      reply_of r = ("Model error: " ++ e)%string).
Proof.
  unfold reply_of. split; [| now intros e ->].
  intros ->.
  assert (H : forall l acc,
             fold_left (fun acc c => match c with
                                     | Some t => if PyStr.truthy t
                                                 then (acc ++ t)%string else acc
                                     | None => acc
                                     end) l acc
             = (acc ++ String.concat EmptyString (chunk_texts l))%string).
  { induction l as [| c l IH]; intro acc; cbn [fold_left chunk_texts flat_map].
    - cbn. now rewrite string_app_nil_r.
    - rewrite IH. destruct c as [t |]; [| reflexivity].
      cbn [app]. fold (chunk_texts l). rewrite concat_empty_cons.
      destruct t; cbn [PyStr.truthy PyStr.is_empty negb]; [reflexivity |].
      now rewrite string_app_assoc. }
  now rewrite H.
Qed.

Lemma sub_ws_spaced (s : string) (b : bool) :
  spaced b (PyStr.sub_ws b s) = true.
Proof.
  revert b. induction s as [| c s IH]; intro b; cbn [PyStr.sub_ws];
    [reflexivity |].
  destruct (PyStr.isspace c) eqn:E.
  - destruct b; [apply IH |].
    cbn [spaced]. change (PyStr.isspace " ") with true.
    cbn [negb andb]. rewrite Ascii.eqb_refl. apply IH.
  - cbn [spaced]. rewrite E. apply IH.
Qed.

Lemma spaced_take (n : nat) (s : string) (b : bool) :
  spaced b s = true -> spaced b (PyStr.take n s) = true.
Proof.
  revert s b. induction n as [| n IH]; intros [| c s] b; cbn [PyStr.take];
    try reflexivity.
  cbn [spaced]. destruct (PyStr.isspace c).
  - intro H. apply andb_true_iff in H. destruct H as [H1 H2].
    rewrite H1. now apply IH.
  - apply IH.
Qed.

Lemma all_space_app (l r : string) :
  all_space (l ++ r) = all_space l && all_space r.
Proof.
  induction l as [| c l IH]; cbn; [reflexivity |].
  now rewrite IH, andb_assoc.
Qed.

Lemma strip_empty_iff (s : string) :
  PyStr.strip s = EmptyString <-> all_space s = true.
Proof.
  split.
  - intro E. destruct (strip_spec s) as (l & r & H & Hl & Hr & _).
    rewrite E in H. cbn in H. rewrite H, all_space_app, Hl, Hr. reflexivity.
  - intro H. unfold PyStr.strip.
    assert (E : PyStr.lstrip s = EmptyString).
    { induction s as [| c s IH]; cbn in *; [reflexivity |].
      apply andb_true_iff in H. destruct H as [H1 H2].
      rewrite H1. now apply IH. }
    now rewrite E.
Qed.

(** X16. The title derived from a message is never empty, never longer
    than the limit, never begins with whitespace, and holds no whitespace
    other than single plain spaces; no title is derived exactly when the
    limit is zero or the message is all whitespace. *)
Theorem slug_from_text_spec (text : string) (limit : nat) :
  (forall t, slug_from_text text limit = Some t ->
             t <> EmptyString
             /\ String.length t <= limit
             /\ single_spaced t = true)
  /\ (slug_from_text text limit = None
      <-> limit = 0 \/ all_space text = true).
Proof.
  unfold slug_from_text.
  set (u := PyStr.sub_ws false (PyStr.strip text)).
  assert (Hu : single_spaced u = true).
  { unfold u, single_spaced.
    destruct (strip_spec text) as (_ & _ & _ & _ & _ & Hhead & _).
    destruct (PyStr.strip text) as [| c v]; [reflexivity |].
    cbn [PyStr.sub_ws]. rewrite (Hhead c v eq_refl).
    cbn [spaced]. rewrite (Hhead c v eq_refl). apply sub_ws_spaced. }
  split.
  - intros t H.
    destruct (PyStr.truthy (PyStr.take limit u)) eqn:E; [| discriminate H].
    injection H as <-. split; [| split].
    + intro H. rewrite H in E. discriminate E.
    + clear. revert limit. induction u as [| c u IH]; intros [| n]; cbn;
        try lia. specialize (IH n). lia.
    + now apply spaced_take.
  - rewrite <- strip_empty_iff.
    destruct (PyStr.take limit u) as [| c v] eqn:E; cbn.
    + split; [intros _ | reflexivity].
      destruct limit as [| n]; [now left | right].
      unfold u in E. destruct (PyStr.strip text) as [| c v]; [reflexivity |].
      cbn in E. destruct (PyStr.isspace c); discriminate E.
    + split; [discriminate |]. intros [-> | H].
      * destruct u; discriminate E.
      * unfold u in E. rewrite H in E. destruct limit; discriminate E.
Qed.

Lemma lower_char_idempotent (c : ascii) :
  PyStr.lower_char (PyStr.lower_char c) = PyStr.lower_char c.
Proof. destruct c as [[] [] [] [] [] [] [] []]; reflexivity. Qed.

Lemma lower_idempotent (s : string) : PyStr.lower (PyStr.lower s) = PyStr.lower s.
Proof.
  induction s as [| c s IH]; cbn; [reflexivity |].
  now rewrite lower_char_idempotent, IH.
Qed.

(** X17. The type settled for an upload is never empty and never the
    generic binary type: it is the declared one, or one that begins with
    "image/". *)
Theorem upload_mime_never_generic (f : FileStorage) :
  upload_mime f <> EmptyString
  /\ upload_mime f <> "application/octet-stream"
  /\ (upload_mime f = mimetype f
      \/ PyStr.startswith (upload_mime f) "image/" = true).
Proof.
  unfold upload_mime.
  set (name := PyStr.lower _).
  destruct (mimetype f) as [| c m] eqn:Em; cbn [PyStr.truthy PyStr.is_empty negb].
  - rewrite String.eqb_refl.
    destruct (PyStr.endswith name ".png");
      [| destruct (PyStr.endswith name ".jpg" || PyStr.endswith name ".jpeg");
         [| destruct (PyStr.endswith name ".webp")]];
      (split; [discriminate | split; [discriminate | now right]]).
  - destruct (String.eqb_spec (String c m) "application/octet-stream") as [E | N].
    + destruct (PyStr.endswith name ".png");
        [| destruct (PyStr.endswith name ".jpg" || PyStr.endswith name ".jpeg");
           [| destruct (PyStr.endswith name ".webp")]];
        (split; [discriminate | split; [discriminate | now right]]).
    + split; [discriminate | split; [exact N | now left]].
Qed.

(** X18. The extension is matched without regard to case: an upload and
    the same upload with its file name lower-cased get the same type. *)
Theorem upload_mime_case_insensitive (n m : string) (b : list Byte.byte) :
  upload_mime {| filename := Some n; mimetype := m; content := b |}
  = upload_mime {| filename := Some (PyStr.lower n); mimetype := m;
                   content := b |}.
Proof.
  unfold upload_mime. cbn [filename mimetype].
  destruct n as [| c n]; [reflexivity |].
  cbn [PyStr.lower PyStr.truthy PyStr.is_empty negb].
  now rewrite lower_char_idempotent, lower_idempotent.
Qed.

(** X19. The image parts of a multipart request are those of the uploads
    that have a file name, in upload order, each with its bytes and the
    type settled for it; uploads without a file name are skipped, and no
    part is built exactly when no upload has a name. *)
Theorem image_parts_of_named_uploads (files : list FileStorage) :
  image_parts_of files
  = map (fun f => from_bytes (content f) (upload_mime f))
        (filter file_truthy files)
  /\ (image_parts_of files = []
      <-> forall f, In f files -> file_truthy f = false).
Proof.
  split.
  - induction files as [| f fs IH]; cbn; [reflexivity |].
    destruct (file_truthy f); cbn; now rewrite IH.
  - induction files as [| f fs IH]; cbn [image_parts_of].
    + split; [intros _ f [] | reflexivity].
    + destruct (file_truthy f) eqn:E.
      * split; [discriminate |]. intro H.
        rewrite (H f (or_introl eq_refl)) in E. discriminate E.
      * rewrite IH. split.
        -- intros H g [<- | Hg]; auto.
        -- intros H g Hg. apply H. now right.
Qed.

Lemma key_lt_irrefl (k : bool * string) : key_lt k k = false.
Proof. destruct k as [[] s]; unfold key_lt; cbn; apply ltb_irrefl. Qed.

Lemma with_key_insert_desc (k : bool * string) (x : Item.t) (l : list Item.t) :
  with_key k (insert_desc x l) = with_key k (x :: l).
Proof.
  unfold with_key.
  induction l as [| y l IH]; cbn [insert_desc]; [reflexivity |].
  destruct (key_lt (sort_key x) (sort_key y)) eqn:E; [| reflexivity].
  cbn [filter] in *. rewrite IH.
  destruct (Bool.eqb (fst (sort_key x)) (fst k)
            && String.eqb (snd (sort_key x)) (snd k)) eqn:Ex; [| reflexivity].
  destruct (Bool.eqb (fst (sort_key y)) (fst k)
            && String.eqb (snd (sort_key y)) (snd k)) eqn:Ey; [| reflexivity].
  exfalso.
  apply andb_true_iff in Ex, Ey. destruct Ex as [X1 X2], Ey as [Y1 Y2].
  apply Bool.eqb_prop in X1, Y1. apply String.eqb_eq in X2, Y2.
  assert (Ek : sort_key x = sort_key y).
  { destruct (sort_key x), (sort_key y). cbn in *. congruence. }
  rewrite Ek, key_lt_irrefl in E. discriminate E.
Qed.

(** X20. Within the pinned group and within the unpinned group the list of
    [GET /api/sessions] runs from the newest [created_at] to the oldest,
    and the sort is stable: sessions with the same pin and the same
    [created_at] stay in the order in which the registry holds them. *)
Theorem get_sessions_order_within_groups (w w' : world) items cur :
  get_sessions w = (Ok (Sessions items cur), w') ->
  (forall l1 a l2 b l3,
     items = l1 ++ a :: l2 ++ b :: l3 ->
     Item.pinned a = Item.pinned b ->
     PyStr.ltb (Item.created_at a) (Item.created_at b) = false)
  /\ (forall k, with_key k items = with_key k (map item_of (chat_sessions w))).
Proof.
  unfold get_sessions. run. intro H. injection H as Hi _ _. subst items.
  split.
  - intros l1 a l2 b l3 E Hp.
    pose proof (sort_reverse_sorted (map item_of (chat_sessions w))) as Hs.
    rewrite E in Hs. apply StronglySorted_before in Hs.
    unfold key_ge, key_lt, sort_key in Hs. cbn [fst snd] in Hs.
    rewrite Hp in Hs. destruct (Item.pinned b); exact Hs.
  - intro k. induction (map item_of (chat_sessions w)) as [| x l IH];
      [reflexivity |].
    cbn [sort_reverse fold_right]. rewrite with_key_insert_desc.
    fold (sort_reverse l). unfold with_key in *. cbn [filter]. now rewrite IH.
Qed.

(* ================================================================== *)
(** ** The further properties at work on the scenarios *)

Lemma busy_reachable :
  reachable Scenario.frozen Scenario.echo Fixture.busy.
Proof. apply reachable_serve, reach_initial. Qed.

Lemma two_sessions_reachable :
  reachable Scenario.frozen Scenario.echo Scenario.two_sessions.
Proof. apply reachable_serve, reach_initial. Qed.

Lemma busy_first_stored :
  PyDict.get Scenario.first_id (chat_sessions Fixture.busy)
  = Some Fixture.busy_first.
Proof. vm_compute. reflexivity. Qed.

Lemma switch_session_spec_witness :
  PyDict.get Fixture.second_id (chat_sessions Fixture.busy)
  = Some Fixture.idle_second
  /\ exists w',
       switch_session Fixture.second_id Fixture.busy
       = (Ok (Switched Fixture.second_id), w')
       /\ current_session_id w' = Some Fixture.second_id
       /\ get_or_create_default_session Scenario.frozen w'
          = (Ok Fixture.idle_second, w').
Proof.
  assert (Hs : PyDict.get Fixture.second_id (chat_sessions Fixture.busy)
               = Some Fixture.idle_second) by (vm_compute; reflexivity).
  split; [exact Hs |].
  destruct (proj2 (switch_session_spec Scenario.frozen Fixture.busy
                     Fixture.second_id) _ Hs)
    as (w' & H1 & _ & H2 & _ & H3).
  exists w'. auto.
Defined.

Lemma reset_clears_current_only_witness :
  reachable Scenario.frozen Scenario.echo Fixture.busy
  /\ exists c w',
       reset Scenario.frozen Fixture.busy = (Ok OkTrue, w')
       /\ current_session_id w' = Some c
       /\ option_map history (PyDict.get c (chat_sessions w')) = Some [].
Proof.
  split; [exact busy_reachable |].
  destruct (reset_clears_current_only Scenario.frozen Scenario.echo
              Fixture.busy busy_reachable) as (c & w' & H1 & H2 & H3 & _).
  exists c, w'. auto.
Defined.

Lemma reset_idempotent_witness :
  reachable Scenario.frozen Scenario.echo Fixture.busy
  /\ reset Scenario.frozen (snd (reset Scenario.frozen Fixture.busy))
     = (Ok OkTrue, snd (reset Scenario.frozen Fixture.busy)).
Proof.
  split; [exact busy_reachable |].
  exact (reset_idempotent Scenario.frozen Scenario.echo Fixture.busy
           busy_reachable).
Defined.

Lemma create_session_spec_witness :
  PyDict.mem "session_3_1715940059" (chat_sessions Scenario.two_sessions)
  = false
  /\ exists w',
       create_session Scenario.frozen Scenario.two_sessions
       = (Ok (Created "session_3_1715940059" "New Chat 3"), w')
       /\ PyDict.keys (chat_sessions w')
          = [Scenario.first_id; Fixture.second_id; "session_3_1715940059"].
Proof.
  assert (Hm : PyDict.mem "session_3_1715940059"
                 (chat_sessions Scenario.two_sessions) = false)
    by (vm_compute; reflexivity).
  split; [exact Hm |].
  destruct (create_session_spec Scenario.frozen Scenario.two_sessions)
    as (w' & H1 & _ & _ & _ & H2).
  exists w'. split; [exact H1 |]. exact (H2 Hm).
Defined.

Lemma registry_invariant_witness :
  reachable Scenario.frozen Scenario.echo Fixture.busy
  /\ NoDup (PyDict.keys (chat_sessions Fixture.busy))
  /\ exists s, PyDict.get Scenario.first_id (chat_sessions Fixture.busy)
               = Some s.
Proof.
  split; [exact busy_reachable |].
  destruct (registry_invariant Scenario.frozen Scenario.echo Fixture.busy
              busy_reachable) as (H1 & H2 & _).
  split; [exact H1 |]. apply H2. reflexivity.
Defined.

Lemma registry_never_empties_witness :
  reachable Scenario.frozen Scenario.echo Fixture.busy
  /\ chat_sessions Fixture.busy <> []
  /\ chat_sessions
       (snd (handle Scenario.frozen Scenario.echo
               (DELETE_session Scenario.first_id) Fixture.busy)) <> [].
Proof.
  assert (N : chat_sessions Fixture.busy <> [])
    by (intro H; vm_compute in H; discriminate H).
  split; [exact busy_reachable |]. split; [exact N |].
  exact (registry_never_empties Scenario.frozen Scenario.echo Fixture.busy
           (DELETE_session Scenario.first_id) busy_reachable N).
Defined.


Lemma chat_appends_exchange_witness :
  reachable Scenario.frozen Scenario.echo Fixture.busy
  /\ chat_input Fixture.with_picture
     = Ok ("look", [from_bytes [] "image/png"])
  /\ exists c s reply w',
       chat Scenario.frozen Scenario.echo Fixture.with_picture Fixture.busy
       = (Ok (ChatReply reply "10:00"), w')
       /\ option_map history (PyDict.get c (chat_sessions w'))
          = Some (history s
                  ++ [user_turn "look" [from_bytes [] "image/png"];
                      model_turn reply]).
Proof.
  assert (Hin : chat_input Fixture.with_picture
                = Ok ("look", [from_bytes [] "image/png"]))
    by (vm_compute; reflexivity).
  split; [exact busy_reachable |]. split; [exact Hin |].
  destruct (chat_appends_exchange Scenario.frozen Scenario.echo Fixture.busy
              _ _ _ busy_reachable Hin (or_introl eq_refl))
    as (c & s & w1 & reply & w' & Hg & Hsame & _ & H1 & _ & _ & _ & H2 & _).
  assert (E : w1 = Fixture.busy)
    by (apply Hsame; intro H; vm_compute in H; discriminate H).
  subst w1. exists c, s, reply, w'. split; [exact H1 | exact H2].
Defined.


Lemma reply_of_concat_witness :
  failure Fixture.gappy = None /\ reply_of Fixture.gappy = "Hello".
Proof.
  split; [reflexivity |].
  exact (proj1 (reply_of_concat Fixture.gappy) eq_refl).
Defined.

Lemma chat_leaves_other_titles_witness :
  reachable Scenario.frozen Scenario.echo Fixture.busy
  /\ PyStr.startswith (title Fixture.busy_first) "New Chat" = false
  /\ option_map title
       (PyDict.get Scenario.first_id
          (chat_sessions
             (snd (chat Scenario.frozen Scenario.echo Fixture.again
                     Fixture.busy))))
     = Some "hello".
Proof.
  split; [exact busy_reachable |]. split; [reflexivity |].
  exact (chat_leaves_other_titles Scenario.frozen Scenario.echo Fixture.busy
           Fixture.again Scenario.first_id Fixture.busy_first
           busy_reachable eq_refl busy_first_stored eq_refl).
Defined.

Lemma chat_counts_one_message_witness :
  reachable Scenario.frozen Scenario.echo Fixture.busy
  /\ exists c s w1,
       get_or_create_default_session Scenario.frozen Fixture.busy = (Ok s, w1)
       /\ option_map (fun x => msg_count (history x))
            (PyDict.get c
               (chat_sessions
                  (snd (chat Scenario.frozen Scenario.echo Fixture.again
                          Fixture.busy))))
          = Some (S (msg_count (history s))).
Proof.
  split; [exact busy_reachable |].
  destruct (chat_counts_one_message Scenario.frozen Scenario.echo Fixture.busy
              Fixture.again "again" [] busy_reachable eq_refl
              (or_introl eq_refl)) as (c & s & w1 & H1 & _ & H2).
  exists c, s, w1. split; [exact H1 | exact H2].
Defined.

Lemma get_sessions_lists_registry_witness :
  reachable Scenario.frozen Scenario.echo Fixture.busy
  /\ exists items,
       get_sessions Fixture.busy
       = (Ok (Sessions items (Some Scenario.first_id)), Fixture.busy)
       /\ In Scenario.first_id (map Item.id items).
Proof.
  split; [exact busy_reachable |].
  destruct (get_sessions_lists_registry Scenario.frozen Scenario.echo
              Fixture.busy busy_reachable) as (items & H1 & _ & _ & _ & H2).
  exists items. split; [exact H1 |]. apply H2. reflexivity.
Defined.

Lemma get_session_read_only_witness :
  PyDict.mem "session_9_0" (chat_sessions Fixture.busy) = false
  /\ get_session Scenario.frozen "session_9_0" Fixture.busy
     = (Ok NotFound, Fixture.busy).
Proof.
  assert (Hm : PyDict.mem "session_9_0" (chat_sessions Fixture.busy) = false)
    by (vm_compute; reflexivity).
  split; [exact Hm |].
  exact (proj1 (proj1 (proj2 (get_session_read_only Scenario.frozen
                               Fixture.busy "session_9_0")) Hm)).
Defined.

Lemma delete_session_removes_only_witness :
  reachable Scenario.frozen Scenario.echo Fixture.busy
  /\ PyDict.mem Fixture.second_id (chat_sessions Fixture.busy) = true
  /\ PyDict.del Fixture.second_id (chat_sessions Fixture.busy) <> []
  /\ PyDict.mem Fixture.second_id
       (chat_sessions
          (snd (delete_session Scenario.frozen Fixture.second_id
                  Fixture.busy))) = false.
Proof.
  assert (Hm : PyDict.mem Fixture.second_id (chat_sessions Fixture.busy)
               = true) by (vm_compute; reflexivity).
  assert (N : PyDict.del Fixture.second_id (chat_sessions Fixture.busy) <> [])
    by (intro H; vm_compute in H; discriminate H).
  split; [exact busy_reachable |]. split; [exact Hm |]. split; [exact N |].
  exact (proj1 (proj2 (proj2 (delete_session_removes_only Scenario.frozen
                                Scenario.echo Fixture.busy Fixture.second_id
                                busy_reachable) Hm N))).
Defined.

Lemma slug_from_text_spec_witness :
  slug_from_text "  hi   there " 40 = Some "hi there"
  /\ single_spaced "hi there" = true.
Proof.
  assert (H : slug_from_text "  hi   there " 40 = Some "hi there")
    by (vm_compute; reflexivity).
  split; [exact H |].
  exact (proj2 (proj2 (proj1 (slug_from_text_spec "  hi   there " 40) _ H))).
Defined.

Lemma image_parts_of_named_uploads_witness :
  (forall f, In f [Fixture.unnamed] -> file_truthy f = false)
  /\ image_parts_of [Fixture.unnamed] = [].
Proof.
  assert (H : forall f, In f [Fixture.unnamed] -> file_truthy f = false).
  { intros f [<- | []]. reflexivity. }
  split; [exact H |].
  exact (proj2 (proj2 (image_parts_of_named_uploads [Fixture.unnamed])) H).
Defined.

Lemma get_sessions_order_within_groups_witness :
  get_sessions Fixture.busy
  = (Ok (Sessions (sort_reverse (map item_of (chat_sessions Fixture.busy)))
           (Some Scenario.first_id)), Fixture.busy)
  /\ with_key (true, "2024-05-17T10:00:59")
       (sort_reverse (map item_of (chat_sessions Fixture.busy)))
     = with_key (true, "2024-05-17T10:00:59")
         (map item_of (chat_sessions Fixture.busy)).
Proof.
  assert (H : get_sessions Fixture.busy
              = (Ok (Sessions
                       (sort_reverse (map item_of (chat_sessions Fixture.busy)))
                       (Some Scenario.first_id)), Fixture.busy))
    by reflexivity.
  split; [exact H |].
  exact (proj2 (get_sessions_order_within_groups _ _ _ _ H) _).
Defined.
